(** * BatchRename_Tg: the browser client of the Telegram batch renamer

    A shallow embedding of the React client (the [App] component and the
    widgets it renders) together with the properties the specification
    states about starting a job, building the mapping list, following the
    job's event stream and drawing the progress bar.

    Three revisions of the client are in the repository:
    - the phone/OTP client, revision "v8" ([Client] below), whose job state
      carries the [renamed], [failed] and [notFound] counters;
    - an earlier phone/OTP revision, whose [mappings], [ready],
      [handleStart], [handleSubmitOtp] and [ProgressBar] are the same
      statements and whose job state only lacks the three counters;
    - the session-string client of [src/App.tsx] ([SessionClient] below),
      which has no phone number and no OTP step.

    The rename engine itself (scanner, matcher, transfer pipeline) runs in
    the Python backend, which is not part of the sources at hand. *)

From Stdlib Require Import String Ascii ZArith NArith List Bool Lia.
From Stdlib Require Import PrimFloat SpecFloat FloatOps Uint63.
Import ListNotations.

(* ================================================================== *)
(** ** JavaScript strings *)
(* ================================================================== *)

Module JS.

(** A JavaScript string is a sequence of UTF-16 code units. *)
Definition code_unit := N.
Definition jsstring := list code_unit.

(** A string literal made of ASCII characters. *)
Definition lit (s : string) : jsstring :=
  map N_of_ascii (list_ascii_of_string s).

(** [ToBoolean] on a string: only the empty string is falsy. *)
Definition truthy (s : jsstring) : bool :=
  match s with
  | [] => false
  | _ :: _ => true
  end.

(** [ToBoolean] on [string | null]. *)
Definition truthy_opt (s : option jsstring) : bool :=
  match s with
  | None => false
  | Some t => truthy t
  end.

(** The code units [String.prototype.trim] strips: ECMAScript WhiteSpace
    (TAB, VT, FF, SP, NBSP, ZWNBSP and the space separators) and
    LineTerminator (LF, CR, LS, PS). *)
Definition is_space (c : code_unit) : bool :=
  ((c =? 9) || (c =? 10) || (c =? 11) || (c =? 12) || (c =? 13)
   || (c =? 32) || (c =? 160) || (c =? 5760)
   || ((8192 <=? c) && (c <=? 8202))
   || (c =? 8232) || (c =? 8233) || (c =? 8239) || (c =? 8287)
   || (c =? 12288) || (c =? 65279))%N.

Fixpoint trimStart (s : jsstring) : jsstring :=
  match s with
  | [] => []
  | c :: r => if is_space c then trimStart r else s
  end.

Definition trimEnd (s : jsstring) : jsstring :=
  rev (trimStart (rev s)).

Definition trim (s : jsstring) : jsstring :=
  trimEnd (trimStart s).

(** [s.split("\n")]: the pieces between line feeds; never empty, the
    empty string splits into one empty piece. *)
Fixpoint split_lf (s : jsstring) : list jsstring :=
  match s with
  | [] => [[]]
  | c :: r =>
      if (c =? 10)%N then [] :: split_lf r
      else match split_lf r with
           | [] => [[c]]
           | l :: ls => (c :: l) :: ls
           end
  end.

(** [pieces.join("\n")] *)
Fixpoint join_lf (pieces : list jsstring) : jsstring :=
  match pieces with
  | [] => []
  | [l] => l
  | l :: rest => l ++ 10%N :: join_lf rest
  end.

(** [a === b] on strings. *)
Fixpoint eqb (a b : jsstring) : bool :=
  match a, b with
  | [], [] => true
  | x :: a', y :: b' => (x =? y)%N && eqb a' b'
  | _, _ => false
  end.

(** [a || null] on a string. *)
Definition or_null (s : jsstring) : option jsstring :=
  if truthy s then Some s else None.

(** [a ?? b]: the left operand unless it is null or undefined. *)
Definition nullish {A : Type} (a : option A) (b : A) : A :=
  match a with
  | Some v => v
  | None => b
  end.

End JS.

(* ================================================================== *)
(** ** JavaScript numbers (IEEE 754 binary64) *)
(* ================================================================== *)

Module Num.

Definition number := float.

(** [Math.round]: the integral number closest to [x], ties going towards
    plus infinity; NaN, the infinities and the zeros are returned as they
    are, and a result in [-0.5, 0) is minus zero.  A finite [x] is
    [(-1)^s * m * 2^e]; for [e < 0] the result is [floor (x + 1/2)],
    computed exactly on integers. *)
Definition Math_round (x : number) : number :=
  match Prim2SF x with
  | S754_finite s m e =>
      if (0 <=? e)%Z then x
      else
        let d := (2 ^ (- e))%Z in
        let n := if s then (- Z.pos m)%Z else Z.pos m in
        let q := ((2 * n + d) / (2 * d))%Z in
        let a := PrimFloat.of_uint63 (Uint63.of_Z (Z.abs q)) in
        if s then PrimFloat.opp a else a
  | _ => x
  end.

(** The expressions [ProgressBar] is written with, and an evaluator that
    also counts the divisions it performs: the conditional operator
    evaluates the selected branch only. *)
Inductive var := v_value | v_max.

Inductive expr :=
| Var (x : var)
| Lit (c : number)
| Div (a b : expr)
| Mul (a b : expr)
| Round (a : expr)
| IfGt (a b : expr) (thn els : expr).   (* a > b ? thn : els *)

Definition env := var -> number.

Fixpoint eval (rho : env) (e : expr) : number * nat :=
  match e with
  | Var x => (rho x, O)
  | Lit c => (c, O)
  | Div a b =>
      let (x, i) := eval rho a in
      let (y, j) := eval rho b in
      (PrimFloat.div x y, S (i + j))
  | Mul a b =>
      let (x, i) := eval rho a in
      let (y, j) := eval rho b in
      (PrimFloat.mul x y, i + j)
  | Round a =>
      let (x, i) := eval rho a in (Math_round x, i)
  | IfGt a b thn els =>
      let (x, i) := eval rho a in
      let (y, j) := eval rho b in
      if PrimFloat.ltb y x
      then let (r, k) := eval rho thn in (r, i + j + k)
      else let (r, k) := eval rho els in (r, i + j + k)
  end.

(** [ProgressBar]:
    [const pct = max > 0 ? Math.round((value / max) * 100) : 0]. *)
Definition pct_expr : expr :=
  IfGt (Var v_max) (Lit 0%float)
       (Round (Mul (Div (Var v_value) (Var v_max)) (Lit 100%float)))
       (Lit 0%float).

Definition props (value max : number) : env :=
  fun x => match x with v_value => value | v_max => max end.

Definition pct (value max : number) : number :=
  fst (eval (props value max) pct_expr).

Definition pct_divisions (value max : number) : nat :=
  snd (eval (props value max) pct_expr).

(** The percentage in the order the words "round(100 * value / max)" give
    it: the product first, then the quotient. *)
Definition pct_product_first (value max : number) : number :=
  Math_round (PrimFloat.div (PrimFloat.mul 100%float value) max).

(** The same quantity on exact integers, ties upwards. *)
Definition pct_exact (value max : Z) : Z :=
  ((2 * (100 * value) + max) / (2 * max))%Z.

End Num.

(* ================================================================== *)
(** ** The phone/OTP client (revision v8) *)
(* ================================================================== *)

(** [type JobStatus = "idle" | "starting" | "scanning" | "renaming" |
    "done" | "error"] *)
Module JobStatus.
Inductive t := idle | starting | scanning | renaming | done | error.
End JobStatus.

(** [interface JobState].  The counters are the integers the server
    reports in JSON; the handlers only store them. *)
Module Job.
Import JS.
Record JobState := mk {
  jobId : option jsstring;
  status : JobStatus.t;
  progress : Z;
  total : Z;
  logs : list jsstring;
  error : option jsstring;
  needsOtp : bool;
  sessionString : option jsstring;
  renamed : Z;
  failed : Z;
  notFound : Z
}.
End Job.

Module Client.
Import JS.
Export Job.

(** One requested rename, as [mappings] builds it. *)
Record Mapping := { old : jsstring; new : jsstring }.

(** The JSON body of [POST /api/start-rename]. *)
Module StartRename.
Record body := {
  api_id : jsstring;
  api_hash : jsstring;
  phone : jsstring;
  src_channel : jsstring;
  dst_channel : jsstring;
  delete_from_src : bool;
  session_string : option jsstring;
  mappings : list Mapping
}.
End StartRename.

Inductive Tab := tab_setup | tab_mapping | tab_run | tab_guide.

(** The state variables of [App]. *)
Record App := mkApp {
  activeTab : Tab;
  apiId : jsstring;
  apiHash : jsstring;
  phone : jsstring;
  srcChannel : jsstring;
  dstChannel : jsstring;
  deleteFromSrc : bool;
  sessionString : jsstring;
  oldNames : jsstring;
  newNames : jsstring;
  otp : jsstring;
  job : JobState
}.

Definition setJob (a : App) (j : JobState) : App :=
  mkApp (activeTab a) (apiId a) (apiHash a) (phone a) (srcChannel a)
        (dstChannel a) (deleteFromSrc a) (sessionString a) (oldNames a)
        (newNames a) (otp a) j.

Definition setActiveTab (a : App) (t : Tab) : App :=
  mkApp t (apiId a) (apiHash a) (phone a) (srcChannel a)
        (dstChannel a) (deleteFromSrc a) (sessionString a) (oldNames a)
        (newNames a) (otp a) (job a).

Definition setOtp (a : App) (v : jsstring) : App :=
  mkApp (activeTab a) (apiId a) (apiHash a) (phone a) (srcChannel a)
        (dstChannel a) (deleteFromSrc a) (sessionString a) (oldNames a)
        (newNames a) v (job a).

(** What the handlers send. *)
Inductive Effect :=
| fetch_start_rename (b : StartRename.body)
| fetch_submit_otp (job_id otp : jsstring)
| open_ws (jobId : jsstring).

(** *** The mapping list *)

(** [text.split("\n").filter(l => l.trim())] *)
Definition nonblank_lines (text : jsstring) : list jsstring :=
  filter (fun l => truthy (trim l)) (split_lf text).

(** [oldLines.map((old, i) => ({ old: old.trim(), new: newLines[i].trim() }))],
    from index [i] on.  [newLines[i]] is [undefined] past the end of
    [newLines], and [undefined.trim()] throws: [None]. *)
Fixpoint pair_lines (newLines : list jsstring) (i : nat)
         (oldLines : list jsstring) : option (list Mapping) :=
  match oldLines with
  | [] => Some []
  | o :: rest =>
      match nth_error newLines i with
      | None => None
      | Some n =>
          match pair_lines newLines (S i) rest with
          | None => None
          | Some ms =>
              Some ({| old := trim o; new := trim n |} :: ms)
          end
      end
  end.

(** The [mappings] memo of [App]; [None] stands for a thrown TypeError. *)
Definition mappings (oldNames newNames : jsstring) : option (list Mapping) :=
  let oldLines := nonblank_lines oldNames in
  let newLines := nonblank_lines newNames in
  if (length oldLines =? 0) || (length newLines =? 0)
     || negb (length oldLines =? length newLines)
  then Some []
  else pair_lines newLines 0 oldLines.

(** The value of [mappings] the handlers of a rendered [App] close over
    (a render whose memo throws builds no handler). *)
Definition mappingsOf (a : App) : list Mapping :=
  match mappings (oldNames a) (newNames a) with
  | Some ms => ms
  | None => []
  end.

(** [const ready = Boolean(apiId && apiHash && phone && srcChannel && dstChannel)] *)
Definition ready (a : App) : bool :=
  truthy (apiId a) && truthy (apiHash a) && truthy (phone a)
  && truthy (srcChannel a) && truthy (dstChannel a).

(** *** Starting a job *)

Definition connecting_line : jsstring :=
  [0xD83D; 0xDD04]%N ++ lit " Connecting to server...".

Definition failed_to_start : jsstring :=
  [0x274C]%N ++ lit " Failed to start: ".

Definition server_error : jsstring := lit "Server error: ".

Definition ws_failed : jsstring :=
  lit "WebSocket connection failed. Is the backend running?".

(** The job state [handleStart] installs. *)
Definition new_job (n : nat) : JobState :=
  {| jobId := None; status := JobStatus.starting; progress := 0;
     total := Z.of_nat n; logs := [connecting_line]; error := None;
     needsOtp := false; Job.sessionString := None;
     renamed := 0; failed := 0; notFound := 0 |}.

Definition start_body (a : App) : StartRename.body :=
  {| StartRename.api_id := apiId a;
     StartRename.api_hash := apiHash a;
     StartRename.phone := phone a;
     StartRename.src_channel := srcChannel a;
     StartRename.dst_channel := dstChannel a;
     StartRename.delete_from_src := deleteFromSrc a;
     StartRename.session_string := or_null (sessionString a);
     StartRename.mappings := mappingsOf a |}.

(** [handleStart], up to its [await fetch(...)]: the guard, the reset of
    the job state, the switch to the run tab and the request. *)
Definition handleStart (a : App) : App * list Effect :=
  if negb (ready a) || (length (mappingsOf a) =? 0) then (a, [])
  else (setActiveTab (setJob a (new_job (length (mappingsOf a)))) tab_run,
        [fetch_start_rename (start_body a)]).

(** How the awaited request ends: a response with [res.ok] and a job
    identifier, a response that is not ok (with its text), or an
    exception (with its message). *)
Inductive StartResponse :=
| resp_ok (job_id : jsstring)
| resp_not_ok (text : jsstring)
| resp_threw (message : jsstring).

Definition start_failure (message : jsstring) (prev : JobState) : JobState :=
  Job.mk (jobId prev) JobStatus.error (progress prev) (total prev)
         (logs prev ++ [failed_to_start ++ message]) (Some message)
         (needsOtp prev) (Job.sessionString prev)
         (renamed prev) (failed prev) (notFound prev).

(** [handleStart], after the [await]. *)
Definition handleStart_resume (r : StartResponse) (prev : JobState)
  : JobState * list Effect :=
  match r with
  | resp_ok job_id =>
      (Job.mk (Some job_id) (status prev) (progress prev) (total prev)
              (logs prev) (error prev) (needsOtp prev)
              (Job.sessionString prev)
              (renamed prev) (failed prev) (notFound prev),
       [open_ws job_id])
  | resp_not_ok text => (start_failure (server_error ++ text) prev, [])
  | resp_threw message => (start_failure message prev, [])
  end.

(** *** The event stream *)

(** A parsed [status] message. *)
Record StatusData := {
  d_status : JobStatus.t;
  d_progress : Z;
  d_total : Z;
  d_needs_otp : bool;
  d_error : option jsstring;
  d_session_string : option jsstring;   (* None: null or absent *)
  d_renamed : option Z;
  d_failed : option Z;
  d_not_found : option Z
}.

(** [JSON.parse(event.data)], by its [type]. *)
Inductive WsData :=
| ws_log (message : jsstring)
| ws_status (d : StatusData)
| ws_other.

(** [ws.onmessage] *)
Definition onmessage (data : WsData) (prev : JobState) : JobState :=
  match data with
  | ws_log message =>
      Job.mk (jobId prev) (status prev) (progress prev) (total prev)
             (logs prev ++ [message]) (error prev) (needsOtp prev)
             (Job.sessionString prev)
             (renamed prev) (failed prev) (notFound prev)
  | ws_status d =>
      Job.mk (jobId prev) (d_status d) (d_progress d) (d_total d)
             (logs prev) (d_error d) (d_needs_otp d)
             (match d_session_string d with
              | Some s => Some s
              | None => Job.sessionString prev
              end)
             (nullish (d_renamed d) (renamed prev))
             (nullish (d_failed d) (failed prev))
             (nullish (d_not_found d) (notFound prev))
  | ws_other => prev
  end.

(** [ws.onerror] *)
Definition onerror (prev : JobState) : JobState :=
  Job.mk (jobId prev) JobStatus.error (progress prev) (total prev)
         (logs prev) (Some ws_failed) (needsOtp prev)
         (Job.sessionString prev)
         (renamed prev) (failed prev) (notFound prev).

(** Everything that updates the job state between two starts. *)
Inductive JobEvent :=
| ev_message (data : WsData)
| ev_ws_error
| ev_start_response (r : StartResponse).

Definition step (j : JobState) (e : JobEvent) : JobState :=
  match e with
  | ev_message data => onmessage data j
  | ev_ws_error => onerror j
  | ev_start_response r => fst (handleStart_resume r j)
  end.

Definition run_events (j : JobState) (es : list JobEvent) : JobState :=
  fold_left step es j.

(** A status message that reports a progress within its total, and the
    total [n]; every other event passes. *)
Definition reports_bounds (n : nat) (e : JobEvent) : bool :=
  match e with
  | ev_message (ws_status d) =>
      (d_progress d <=? d_total d)%Z && (d_total d =? Z.of_nat n)%Z
  | _ => true
  end.

(** A status message whose [session_string] is null or absent; every
    other event passes. *)
Definition no_session_string (e : JobEvent) : bool :=
  match e with
  | ev_message (ws_status d) =>
      match d_session_string d with
      | None => true
      | Some _ => false
      end
  | _ => true
  end.

(** *** Submitting the OTP *)

(** [handleSubmitOtp]; [resolves] tells whether the awaited request
    resolves (the input is cleared afterwards) or throws. *)
Definition handleSubmitOtp (resolves : bool) (a : App) : App * list Effect :=
  match jobId (job a) with
  | None => (a, [])
  | Some id =>
      if negb (truthy id) || negb (truthy (otp a)) then (a, [])
      else (if resolves then setOtp a [] else a,
            [fetch_submit_otp id (otp a)])
  end.

(** [RunTab] renders the OTP panel, whose button and Enter key call
    [onSubmitOtp], under [job.needsOtp &&]. *)
Definition RunTab_shows_otp (j : JobState) : bool := needsOtp j.

(** Submitting from the rendered page. *)
Definition RunTab_submitOtp (resolves : bool) (a : App) : App * list Effect :=
  if RunTab_shows_otp (job a) then handleSubmitOtp resolves a else (a, []).

(** [RunTab] renders the start button in the states idle, error and done,
    and disables it under [!ready || mappingCount === 0]. *)
Definition RunTab_shows_start (j : JobState) : bool :=
  match status j with
  | JobStatus.idle | JobStatus.error | JobStatus.done => true
  | _ => false
  end.

Definition RunTab_start_disabled (a : App) : bool :=
  negb (ready a) || (length (mappingsOf a) =? 0).

End Client.

(* ================================================================== *)
(** ** The session-string client ([src/App.tsx]) *)
(* ================================================================== *)

Module SessionClient.
Import JS.

Inductive Tab := tab_config | tab_files | tab_run.

(** The state variables of [App]. *)
Record App := mkApp {
  apiId : jsstring;
  apiHash : jsstring;
  sessionString : jsstring;
  sourceChatId : jsstring;
  destChatId : jsstring;
  newFilenames : jsstring;
  isRunning : bool;
  logs : list jsstring;
  progress : Z;
  totalFiles : Z;
  currentFile : jsstring;
  activeTab : Tab
}.

(** The number [parseInt(s)], named by its argument. *)
Inductive num := parseInt (s : jsstring).

(** The JSON body of [POST /api/start]. *)
Record body := {
  api_id : num;
  api_hash : jsstring;
  session_string : jsstring;
  source_chat_id : jsstring;
  dest_chat_id : jsstring;
  filenames : list jsstring;
  start_index : Z
}.

Inductive Effect :=
| alert (message : jsstring)
| post_start (b : body).

Definition no_filename : jsstring := lit "Please provide at least one filename.".
Definition fill_in_all : jsstring := lit "Please fill in all configuration fields.".
Definition failed_task : jsstring := lit "Failed to start task: ".

(** [newFilenames.split('\n').map(n => n.trim()).filter(n => n.length > 0)] *)
Definition namesList (a : App) : list jsstring :=
  filter (fun n => 0 <? length n) (map trim (split_lf (newFilenames a))).

(** [startTask]; [failure] is [None] when the awaited request resolves and
    [Some detail] when it throws, [detail] being
    [e.response?.data?.detail || e.message]. *)
Definition startTask (failure : option jsstring) (a : App)
  : App * list Effect :=
  if length (namesList a) =? 0 then (a, [alert no_filename])
  else if negb (truthy (apiId a)) || negb (truthy (apiHash a))
          || negb (truthy (sessionString a)) || negb (truthy (sourceChatId a))
          || negb (truthy (destChatId a))
  then (a, [alert fill_in_all])
  else
    let b := {| api_id := parseInt (apiId a);
                api_hash := apiHash a;
                session_string := sessionString a;
                source_chat_id := sourceChatId a;
                dest_chat_id := destChatId a;
                filenames := namesList a;
                start_index := 0 |} in
    match failure with
    | None =>
        (mkApp (apiId a) (apiHash a) (sessionString a) (sourceChatId a)
               (destChatId a) (newFilenames a) true (logs a) (progress a)
               (totalFiles a) (currentFile a) tab_run,
         [post_start b])
    | Some detail => (a, [post_start b; alert (failed_task ++ detail)])
    end.

(** Whether an effect is the start call. *)
Definition is_post (e : Effect) : bool :=
  match e with
  | post_start _ => true
  | alert _ => false
  end.

End SessionClient.

(* ================================================================== *)
(** ** The fuzzy matcher of the rename engine *)
(* ================================================================== *)

Module Matcher.
Import JS.

(** Modelled from the spec: the [ChannelIndexEntry] of the data model;
    the engine that builds and reads it is in the backend, which is
    missing from the sources. *)
Record ChannelIndexEntry := {
  messageId : Z;
  fileName : jsstring;
  fileSize : Z;
  fileReference : N
}.

(** Modelled from the spec: the [matchTier] of a mapping. *)
Inductive matchTier := tier_none | exact | normalized | episode.

Section Tiers.

(** Modelled from the spec: the canonicalisation of tier 2 and the
    episode-number extraction of tier 3, both functions of the missing
    backend; the matcher is stated for any such pair. *)
Variable normalize : jsstring -> jsstring.
Variable episode_number : jsstring -> option N.

(** Modelled from the spec: an entry matched to one mapping is not
    eligible again in the same job; [used] holds the message identifiers
    consumed so far, and the index is in scan order, oldest first. *)
Definition eligible (used : list Z) (index : list ChannelIndexEntry)
  : list ChannelIndexEntry :=
  filter (fun e => negb (existsb (Z.eqb (messageId e)) used)) index.

(** Modelled from the spec: tier 1, byte-for-byte equality; the first
    scanned entry wins. *)
Definition tier_exact (oldName : jsstring) (cands : list ChannelIndexEntry)
  : option ChannelIndexEntry :=
  find (fun e => eqb (fileName e) oldName) cands.

(** Modelled from the spec: tier 2, equality after canonicalisation. *)
Definition tier_normalized (oldName : jsstring) (cands : list ChannelIndexEntry)
  : option ChannelIndexEntry :=
  find (fun e => eqb (normalize (fileName e)) (normalize oldName)) cands.

(** Modelled from the spec: tier 3, equal extracted episode numbers. *)
Definition tier_episode (oldName : jsstring) (cands : list ChannelIndexEntry)
  : option ChannelIndexEntry :=
  match episode_number oldName with
  | None => None
  | Some k =>
      find (fun e => match episode_number (fileName e) with
                     | Some k' => (k =? k')%N
                     | None => false
                     end) cands
  end.

(** Modelled from the spec: the three-tier matcher of the missing backend,
    first match wins, tiers tried in the order exact, normalized,
    episode number. *)
Definition match_name (used : list Z) (index : list ChannelIndexEntry)
           (oldName : jsstring) : option (ChannelIndexEntry * matchTier) :=
  let cands := eligible used index in
  match tier_exact oldName cands with
  | Some e => Some (e, exact)
  | None =>
      match tier_normalized oldName cands with
      | Some e => Some (e, normalized)
      | None =>
          match tier_episode oldName cands with
          | Some e => Some (e, episode)
          | None => None
          end
      end
  end.

End Tiers.

(** Modelled from the spec: a canonicalisation that lower-cases, strips
    bracketed and parenthesised segments, removes punctuation that is not
    part of the extension (the last dot and what follows it) and collapses
    whitespace. *)
Definition lower (c : code_unit) : code_unit :=
  if ((65 <=? c) && (c <=? 90))%N then (c + 32)%N else c.

(** Modelled from the spec: stripping of the segments in square brackets
    and in parentheses; [closing] is the bracket awaited, if any. *)
Fixpoint strip_segments (closing : option code_unit) (s : jsstring) : jsstring :=
  match s with
  | [] => []
  | c :: r =>
      match closing with
      | Some k => if (c =? k)%N then strip_segments None r
                  else strip_segments closing r
      | None =>
          if (c =? 91)%N then strip_segments (Some 93%N) r
          else if (c =? 40)%N then strip_segments (Some 41%N) r
          else c :: strip_segments None r
      end
  end.

(** Modelled from the spec: what is not punctuation (digits, letters and
    everything beyond ASCII). *)
Definition is_alnum (c : code_unit) : bool :=
  (((48 <=? c) && (c <=? 57)) || ((97 <=? c) && (c <=? 122))
   || ((65 <=? c) && (c <=? 90)) || (127 <? c))%N.

(** Modelled from the spec: removal of punctuation; letters, digits and
    spaces stay, and of the dots only the last one. *)
Fixpoint drop_punctuation (s : jsstring) : jsstring :=
  match s with
  | [] => []
  | c :: r =>
      if is_alnum c || is_space c then c :: drop_punctuation r
      else if (c =? 46)%N && negb (existsb (N.eqb 46) r)
           then c :: drop_punctuation r
           else drop_punctuation r
  end.

(** Modelled from the spec: every run of whitespace becomes one space;
    [after_space] tells that the previous code unit was whitespace. *)
Fixpoint collapse_spaces (after_space : bool) (s : jsstring) : jsstring :=
  match s with
  | [] => []
  | c :: r =>
      if is_space c
      then (if after_space then collapse_spaces true r
            else 32%N :: collapse_spaces true r)
      else c :: collapse_spaces false r
  end.

(** Modelled from the spec: the canonical form of a file name. *)
Definition spec_normalize (s : jsstring) : jsstring :=
  trim (collapse_spaces false
          (drop_punctuation (strip_segments None (map lower s)))).

(** Modelled from the spec: the decimal digits. *)
Definition is_digit (c : code_unit) : bool := ((48 <=? c) && (c <=? 57))%N.

(** Modelled from the spec: the value of the digits at the head of [s],
    continuing [acc]. *)
Fixpoint digit_run (acc : N) (s : jsstring) : N :=
  match s with
  | [] => acc
  | c :: r => if is_digit c then digit_run (10 * acc + (c - 48))%N r else acc
  end.

(** Modelled from the spec: the first contiguous run of digits, read as a
    decimal number. *)
Fixpoint spec_episode_number (s : jsstring) : option N :=
  match s with
  | [] => None
  | c :: r => if is_digit c then Some (digit_run 0%N s)
              else spec_episode_number r
  end.

End Matcher.

(* ================================================================== *)
(** ** Concrete inputs *)
(* ================================================================== *)

Module Examples.
Import JS.

Definition lines (ls : list jsstring) : jsstring :=
  concat (map (fun l => l ++ [10%N]) ls).

(** Two text areas with two non-blank lines each, and stray blank lines. *)
Definition old_text : jsstring :=
  lines [lit "[AS] Episode 1.mkv"; lit "   "; lit "  [AS] Episode 2.mkv "].
Definition new_text : jsstring :=
  lines [lit ""; lit "Show.S01E001.mkv"; lit "Show.S01E002.mkv"].

Definition idle_job : Job.JobState :=
  Job.mk None JobStatus.idle 0 0 [] None false None 0 0 0.

(** A filled form without a session token. *)
Definition app_ready : Client.App :=
  Client.mkApp Client.tab_run (lit "12345678") (lit "a1b2c3") (lit "+15550100")
               (lit "@source") (lit "-1001234") false [] old_text new_text []
               idle_job.

(** The same form with the phone number left empty. *)
Definition app_no_phone : Client.App :=
  Client.mkApp Client.tab_run (lit "12345678") (lit "a1b2c3") []
               (lit "@source") (lit "-1001234") false [] old_text new_text []
               idle_job.

(** The same form with a phone number made of one space. *)
Definition app_space_phone : Client.App :=
  Client.mkApp Client.tab_run (lit "12345678") (lit "a1b2c3") (lit " ")
               (lit "@source") (lit "-1001234") false [] old_text new_text []
               idle_job.

(** The job state right after the start of [app_ready] is accepted. *)
Definition started_job : Job.JobState :=
  Client.job (fst (Client.handleStart app_ready)).

(** A status message that reports more progress than its total. *)
Definition status_over : Client.StatusData :=
  {| Client.d_status := JobStatus.renaming;
     Client.d_progress := 3; Client.d_total := 2;
     Client.d_needs_otp := false; Client.d_error := None;
     Client.d_session_string := None;
     Client.d_renamed := Some 3%Z; Client.d_failed := None;
     Client.d_not_found := None |}.

(** Status messages of a well-behaved run over two mappings. *)
Definition status_at (s : JobStatus.t) (p : Z) (sess : option jsstring)
  : Client.StatusData :=
  {| Client.d_status := s;
     Client.d_progress := p; Client.d_total := 2;
     Client.d_needs_otp := false; Client.d_error := None;
     Client.d_session_string := sess;
     Client.d_renamed := Some p; Client.d_failed := Some 0%Z;
     Client.d_not_found := Some 0%Z |}.

Definition run_trace : list Client.JobEvent :=
  [ Client.ev_start_response (Client.resp_ok (lit "job-1"));
    Client.ev_message (Client.ws_log (lit "scanning"));
    Client.ev_message (Client.ws_status (status_at JobStatus.scanning 0 None));
    Client.ev_message (Client.ws_status (status_at JobStatus.renaming 1 None));
    Client.ev_message (Client.ws_log (lit "renamed 1"));
    Client.ev_message (Client.ws_status (status_at JobStatus.done 2 None)) ].

(** A running job that is not waiting for a code, with a code typed in. *)
Definition app_code_typed : Client.App :=
  Client.mkApp Client.tab_run (lit "12345678") (lit "a1b2c3") (lit "+15550100")
               (lit "@source") (lit "-1001234") false [] old_text new_text
               (lit "12345")
               (Job.mk (Some (lit "job-1")) JobStatus.renaming 1 2 [] None
                       false None 1 0 0).

(** A job that holds a session string. *)
Definition job_with_session : Job.JobState :=
  Job.mk (Some (lit "job-1")) JobStatus.renaming 1 2 [lit "logged in"] None
         false (Some (lit "1BVtsOK")) 1 0 0.

(** The session-string client: every field filled but the session string. *)
Definition session_app_blank : SessionClient.App :=
  SessionClient.mkApp (lit "12345678") (lit "a1b2c3") []
                      (lit "-100123456789") (lit "-100987654321")
                      (lit "Show.S01E001.mkv") false [] 0 0 []
                      SessionClient.tab_run.

Definition session_app_filled : SessionClient.App :=
  SessionClient.mkApp (lit "12345678") (lit "a1b2c3") (lit "BQAbcd")
                      (lit "-100123456789") (lit "-100987654321")
                      (lit "Show.S01E001.mkv") false [] 0 0 []
                      SessionClient.tab_run.

(** A scanned index with an entry that differs in case, an entry with the
    requested name, and an entry that shares only the episode number. *)
Definition entry (id : Z) (name : string) : Matcher.ChannelIndexEntry :=
  {| Matcher.messageId := id; Matcher.fileName := lit name;
     Matcher.fileSize := 1024; Matcher.fileReference := Z.to_N id |}.

Definition index : list Matcher.ChannelIndexEntry :=
  [ entry 10 "OLD1.mkv"; entry 11 "old1.mkv"; entry 12 "Other 1 [x].mkv" ].

Definition spec_match := Matcher.match_name Matcher.spec_normalize
                                            Matcher.spec_episode_number.

End Examples.

(* ================================================================== *)
(** ** More of the built-ins *)
(* ================================================================== *)

Module Builtins.
Import JS.

(** [s.startsWith(p)] *)
Fixpoint startsWith (s p : jsstring) : bool :=
  match p, s with
  | [], _ => true
  | _ :: _, [] => false
  | x :: p', y :: s' => (x =? y)%N && startsWith s' p'
  end.

(** [s.replace(/^http/, "ws")]: only a match at the start is replaced. *)
Definition replace_http_ws (s : jsstring) : jsstring :=
  if startsWith s (lit "http") then lit "ws" ++ skipn 4 s else s.

(** [l.map((x, i) => f(i, x))], the indices counted from [i]. *)
Fixpoint map_index {A B : Type} (f : nat -> A -> B) (i : nat) (l : list A)
  : list B :=
  match l with
  | [] => []
  | x :: r => f i x :: map_index f (S i) r
  end.

(** [l.findIndex(p)], -1 when nothing is found. *)
Fixpoint findIndex {A : Type} (p : A -> bool) (l : list A) : Z :=
  match l with
  | [] => (-1)%Z
  | x :: r =>
      if p x then 0%Z
      else let k := findIndex p r in
           if (k <? 0)%Z then (-1)%Z else (k + 1)%Z
  end.

(** [l[k]] for a number [k]: undefined outside the list. *)
Definition at_index {A : Type} (l : list A) (k : Z) : option A :=
  if (k <? 0)%Z then None else nth_error l (Z.to_nat k).

End Builtins.

(* ================================================================== *)
(** ** The mapping tab *)
(* ================================================================== *)

Module MappingTab.
Import JS Builtins.

(** [Math.min(oldLines.length, newLines.length)] *)
Definition count (oldNames newNames : jsstring) : nat :=
  Nat.min (length (Client.nonblank_lines oldNames))
          (length (Client.nonblank_lines newNames)).

(** [oldLines.length !== newLines.length &&
     (oldLines.length > 0 || newLines.length > 0)] *)
Definition mismatch (oldNames newNames : jsstring) : bool :=
  negb (length (Client.nonblank_lines oldNames)
        =? length (Client.nonblank_lines newNames))
  && ((0 <? length (Client.nonblank_lines oldNames))
      || (0 <? length (Client.nonblank_lines newNames))).

(** The red banner, under [mismatch &&]. *)
Definition shows_mismatch := mismatch.

(** The green banner, under [!mismatch && count > 0]. *)
Definition shows_ready (oldNames newNames : jsstring) : bool :=
  negb (mismatch oldNames newNames) && (0 <? count oldNames newNames).

(** The preview table, under [count > 0 && !mismatch]. *)
Definition shows_preview (oldNames newNames : jsstring) : bool :=
  (0 <? count oldNames newNames) && negb (mismatch oldNames newNames).

(** A row of the preview: [i + 1], [old] and [newLines[i]] (nothing is
    drawn for undefined). *)
Record Row := {
  number : nat;
  old_cell : jsstring;
  new_cell : option jsstring
}.

(** [oldLines.slice(0, 5).map((old, i) => ...)] *)
Definition preview (oldNames newNames : jsstring) : list Row :=
  map_index (fun i o =>
               {| number := i + 1; old_cell := o;
                  new_cell := nth_error (Client.nonblank_lines newNames) i |})
            0 (firstn 5 (Client.nonblank_lines oldNames)).

(** The line "+ n more mappings...", under [count > 5], with [count - 5]. *)
Definition more (oldNames newNames : jsstring) : option nat :=
  if 5 <? count oldNames newNames
  then Some (count oldNames newNames - 5)
  else None.

(** The lines of the two columns paired in order, both trimmed. *)
Definition zip_lines (oldLines newLines : list jsstring) : list Client.Mapping :=
  map (fun p => {| Client.old := trim (fst p); Client.new := trim (snd p) |})
      (combine oldLines newLines).

(** The mapping a preview row stands for: both cells trimmed. *)
Definition row_mapping (r : Row) : option Client.Mapping :=
  match new_cell r with
  | Some n => Some {| Client.old := trim (old_cell r); Client.new := trim n |}
  | None => None
  end.

End MappingTab.

(* ================================================================== *)
(** ** The run tab and the page around it *)
(* ================================================================== *)

Module RunTab.
Import JS Builtins Client.

Definition status_eqb (s t : JobStatus.t) : bool :=
  match s, t with
  | JobStatus.idle, JobStatus.idle
  | JobStatus.starting, JobStatus.starting
  | JobStatus.scanning, JobStatus.scanning
  | JobStatus.renaming, JobStatus.renaming
  | JobStatus.done, JobStatus.done
  | JobStatus.error, JobStatus.error => true
  | _, _ => false
  end.

(** A click on the start button: the button is drawn in the states idle,
    error and done (a spinner takes its place otherwise), and a disabled
    button does not call [onStart]. *)
Definition clickStart (a : App) : App * list Effect :=
  if RunTab_shows_start (job a) && negb (RunTab_start_disabled a)
  then handleStart a
  else (a, []).

(** The error box, under [job.status === "error" && job.error]. *)
Definition shows_error (j : JobState) : bool :=
  status_eqb (status j) JobStatus.error && truthy_opt (error j).

(** The text behind "Copy Logs": [job.logs.join("\n")], under
    [job.logs.length > 0]. *)
Definition copied_logs (j : JobState) : option jsstring :=
  if 0 <? length (logs j) then Some (join_lf (logs j)) else None.

(** The colour classes of the log lines (first revision of the phone/OTP
    client). *)
Inductive LogClass :=
| text_emerald_400 | text_red_400 | text_amber_400 | text_blue_400
| text_yellow_400 | text_violet_400 | text_slate_300.

Definition check_mark : jsstring := [0x2705]%N.
Definition cross_mark : jsstring := [0x274C]%N.
Definition warning_sign : jsstring := [0x26A0; 0xFE0F]%N.
Definition magnifier : jsstring := [0xD83D; 0xDD0D]%N.
Definition open_folder : jsstring := [0xD83D; 0xDCC2]%N.
Definition party_popper : jsstring := [0xD83C; 0xDF89]%N.

(** The chain of [log.startsWith(...) ? ... :] tests. *)
Definition log_class (log : jsstring) : LogClass :=
  if startsWith log check_mark then text_emerald_400
  else if startsWith log cross_mark then text_red_400
  else if startsWith log warning_sign then text_amber_400
  else if startsWith log magnifier || startsWith log open_folder
       then text_blue_400
  else if startsWith log party_popper then text_yellow_400
  else if startsWith log (lit "=") then text_violet_400
  else text_slate_300.

End RunTab.

(** The tabs and the Back and Next buttons of [App]. *)
Module Nav.
Import JS Builtins Client.

Definition tab_eqb (s t : Tab) : bool :=
  match s, t with
  | tab_setup, tab_setup | tab_mapping, tab_mapping
  | tab_run, tab_run | tab_guide, tab_guide => true
  | _, _ => false
  end.

(** The [id]s of [TABS], in order. *)
Definition TABS : list Tab := [tab_setup; tab_mapping; tab_run; tab_guide].

(** [TABS.findIndex(t => t.id === activeTab)] *)
Definition index_of (t : Tab) : Z := findIndex (tab_eqb t) TABS.

(** The Back button: [if (idx > 0) setActiveTab(TABS[idx - 1].id)];
    [None] stands for the TypeError of reading [id] of undefined. *)
Definition back (a : App) : option App :=
  let idx := index_of (activeTab a) in
  if (0 <? idx)%Z
  then match at_index TABS (idx - 1) with
       | Some t => Some (setActiveTab a t)
       | None => None
       end
  else Some a.

(** The Next button:
    [if (idx < TABS.length - 1) setActiveTab(TABS[idx + 1].id)]. *)
Definition next (a : App) : option App :=
  let idx := index_of (activeTab a) in
  if (idx <? Z.of_nat (length TABS) - 1)%Z
  then match at_index TABS (idx + 1) with
       | Some t => Some (setActiveTab a t)
       | None => None
       end
  else Some a.

(** [disabled={activeTab === TABS[0].id}] *)
Definition back_disabled (a : App) : bool :=
  match at_index TABS 0 with
  | Some t => tab_eqb (activeTab a) t
  | None => false
  end.

(** [disabled={activeTab === TABS[TABS.length - 1].id}] *)
Definition next_disabled (a : App) : bool :=
  match at_index TABS (Z.of_nat (length TABS) - 1) with
  | Some t => tab_eqb (activeTab a) t
  | None => false
  end.

End Nav.

(** The socket address [connectWs] builds:
    [API.replace(/^http/, "ws") + `/ws/${jobId}`]. *)
Module Ws.
Import JS Builtins.

Definition wsUrl (API jobId : jsstring) : jsstring :=
  replace_http_ws API ++ lit "/ws/" ++ jobId.

End Ws.

(* ================================================================== *)
(** ** The job state as a function of the events received *)
(* ================================================================== *)

Module Stream.
Import JS Client.

(** The events applied to the job of a page. *)
Definition receive (a : App) (es : list JobEvent) : App :=
  setJob a (run_events (job a) es).

(** The line an event adds to the log, if any. *)
Definition log_lines (e : JobEvent) : list jsstring :=
  match e with
  | ev_message (ws_log message) => [message]
  | ev_start_response (resp_not_ok text) =>
      [failed_to_start ++ server_error ++ text]
  | ev_start_response (resp_threw message) => [failed_to_start ++ message]
  | _ => []
  end.

(** The last status message of a stretch of events. *)
Definition last_status (es : list JobEvent) : option StatusData :=
  fold_left (fun acc e => match e with
                          | ev_message (ws_status d) => Some d
                          | _ => acc
                          end) es None.

(** The last non-null session string carried by a status message. *)
Definition last_session (es : list JobEvent) : option jsstring :=
  fold_left (fun acc e => match e with
                          | ev_message (ws_status d) =>
                              match d_session_string d with
                              | Some s => Some s
                              | None => acc
                              end
                          | _ => acc
                          end) es None.

(** The ending of the start request that carries the job identifier. *)
Definition is_resp_ok (e : JobEvent) : bool :=
  match e with
  | ev_start_response (resp_ok _) => true
  | _ => false
  end.

(** The events that leave the status alone: log and other messages, and
    the job identifier coming in. *)
Definition keeps_status (e : JobEvent) : bool :=
  match e with
  | ev_message (ws_log _) | ev_message ws_other
  | ev_start_response (resp_ok _) => true
  | _ => false
  end.

(** The events that end a job in the error state on the client side. *)
Definition is_failure (e : JobEvent) : bool :=
  match e with
  | ev_ws_error
  | ev_start_response (resp_not_ok _)
  | ev_start_response (resp_threw _) => true
  | _ => false
  end.

End Stream.

(* ================================================================== *)
(** ** The session-string client: polling and the page *)
(* ================================================================== *)

Module SessionPage.
Import JS SessionClient.

(** The body of [GET /api/status], as far as it is read. *)
Record StatusBody := {
  is_running : bool;
  r_logs : option (list jsstring);
  r_progress : option Z;
  r_total : option Z;
  r_current_file : option jsstring
}.

(** [fetchStatus]; [res] is [None] when the request throws (the error goes
    to the console).  In [x || d] the falsy values of [x] are [d] itself
    ([0], the empty string) or missing, so the default applies to a
    missing field only. *)
Definition fetchStatus (res : option StatusBody) (a : App) : App :=
  match res with
  | None => a
  | Some d =>
      mkApp (apiId a) (apiHash a) (sessionString a) (sourceChatId a)
            (destChatId a) (newFilenames a) (is_running d)
            (nullish (r_logs d) []) (nullish (r_progress d) 0%Z)
            (nullish (r_total d) 0%Z) (nullish (r_current_file d) [])
            (activeTab a)
  end.

(** One tick of the polling effect, which runs while the run tab is the
    active one. *)
Definition poll (res : option StatusBody) (a : App) : App :=
  match activeTab a with
  | tab_run => fetchStatus res a
  | _ => a
  end.

(** A click on Start, which is drawn under [!isRunning] (Stop takes its
    place otherwise). *)
Definition clickStart (failure : option jsstring) (a : App)
  : App * list Effect :=
  if negb (isRunning a) then startTask failure a else (a, []).


End SessionPage.

(* ================================================================== *)
(** ** The progress bar on file counts *)
(* ================================================================== *)

Module Bar.
Import JS Num.

(** The number a count of files is, for counts below 2^53 (which a double
    holds exactly). *)
Definition of_count (n : nat) : number :=
  PrimFloat.of_uint63 (Uint63.of_Z (Z.of_nat n)).

(** The number an integer is, for integers below 2^53 in size. *)
Definition of_int (z : Z) : number :=
  if (z <? 0)%Z then PrimFloat.opp (PrimFloat.of_uint63 (Uint63.of_Z (- z)))
  else PrimFloat.of_uint63 (Uint63.of_Z z).

(** [a === b] on numbers. *)
Definition strict_eq (a b : number) : bool := PrimFloat.eqb a b.

(** The integer a percentage [r] is, looked for at the exact rounding
    [exact] and one below it. *)
Definition shown (r : number) (exact : Z) : option Z :=
  if strict_eq r (of_int exact) then Some exact
  else if strict_eq r (of_int (exact - 1)) then Some (exact - 1)%Z
  else None.

(** [pct === 100 ? "bg-emerald-500" : "bg-violet-500"] *)
Definition bar_is_emerald (value max : number) : bool :=
  strict_eq (pct value max) 100%float.

(** The percentages drawn for a total of [m] files, at 0, 1, ..., m files
    done. *)
Definition percentages (m : nat) : list (option Z) :=
  map (fun v => shown (pct (of_count v) (of_count m))
                      (pct_exact (Z.of_nat v) (Z.of_nat m)))
      (seq 0 (S m)).

(** What is checked of the percentage [p] at [v] of [m] files: from 0 to
    100, 0 at the start and 100 at the end. *)
Definition in_range (m v : nat) (p : Z) : bool :=
  ((0 <=? p) && (p <=? 100)
   && (negb (v =? 0)%nat || (p =? 0))
   && (negb (v =? m)%nat || (p =? 100)))%Z.

(** One pass over the percentages from [v] files on: each is a whole
    number, in range, and not below [prev], the one before it. *)
Fixpoint scan (m v : nat) (prev : Z) (ps : list (option Z)) : bool :=
  match ps with
  | [] => true
  | None :: _ => false
  | Some p :: rest => in_range m v p && (prev <=? p)%Z && scan m (S v) p rest
  end.

Definition checked (m : nat) : bool :=
  scan m 0 0%Z (percentages m) && bar_is_emerald (of_count m) (of_count m).

Definition largest_total : nat := 300.

End Bar.

(* ================================================================== *)
(** ** More concrete inputs *)
(* ================================================================== *)

Module Cases.
Import JS.

(** The old names of [Examples.old_text] without the blank line and the
    stray spaces. *)
Definition old_text_tidy : jsstring :=
  Examples.lines [lit "[AS] Episode 1.mkv"; lit "[AS] Episode 2.mkv"].

(** One more pair of names. *)
Definition old_text_more : jsstring := lit " [AS] Episode 3.mkv".
Definition new_text_more : jsstring := lit "Show.S01E003.mkv ".

(** Seven pairs of names. *)
Definition seven_old : jsstring :=
  Examples.lines [lit "a1"; lit "a2"; lit "a3"; lit "a4"; lit "a5"; lit "a6";
                  lit "a7"].
Definition seven_new : jsstring :=
  Examples.lines [lit "b1"; lit "b2"; lit "b3"; lit "b4"; lit "b5"; lit "b6";
                  lit "b7"].

(** A filled form whose two text areas do not have the same number of
    names. *)
Definition app_mismatch : Client.App :=
  Client.mkApp Client.tab_mapping (lit "12345678") (lit "a1b2c3")
               (lit "+15550100") (lit "@source") (lit "-1001234") false []
               Examples.old_text (lit "Show.S01E001.mkv") [] Examples.idle_job.

(** Events that leave the status of a job alone. *)
Definition quiet_events : list Client.JobEvent :=
  [ Client.ev_message (Client.ws_log (lit "connecting"));
    Client.ev_message Client.ws_other ].

(** A status body that reports a finished task. *)
Definition status_polled : SessionPage.StatusBody :=
  {| SessionPage.is_running := false;
     SessionPage.r_logs := Some [lit "done"];
     SessionPage.r_progress := Some 1%Z;
     SessionPage.r_total := Some 1%Z;
     SessionPage.r_current_file := None |}.

End Cases.

(* ================================================================== *)
(** ** The words of the specification on lines and fields *)
(* ================================================================== *)

Module Wording.
Import JS.

(** Follows the specification's words, to be compared with the tests of
    the source: a line or a field is blank when it holds nothing but
    whitespace (the empty one included). *)
Definition blank (l : jsstring) : bool := forallb is_space l.

(** Follows the specification's words: the non-blank lines among [ls], in
    the order they have in [ls]. *)
Definition nonblank (ls : list jsstring) : list jsstring :=
  filter (fun l => negb (blank l)) ls.

(** Follows the specification's words: [t] is the line [l] trimmed, that
    is [l] without a stretch of whitespace at its start and one at its
    end, and [t] neither starts nor ends with whitespace. *)
Definition trimmed (l t : jsstring) : Prop :=
  exists p q,
    l = p ++ t ++ q /\ forallb is_space p = true /\ forallb is_space q = true /\
    (forall c r, t = c :: r -> is_space c = false) /\
    (forall r c, t = r ++ [c] -> is_space c = false).

(** Lines as a text area holds them: at least one, none with a line feed
    inside; the text is the lines joined by line feeds. *)
Definition are_lines (ls : list jsstring) : bool :=
  negb (length ls =? 0) && forallb (fun l => negb (existsb (N.eqb 10) l)) ls.

(** The lines of the two text areas of [Examples]: a blank line and stray
    spaces on the old side, an empty first line on the new side. *)
Definition old_lines : list jsstring :=
  [lit "[AS] Episode 1.mkv"; lit "   "; lit "  [AS] Episode 2.mkv "; lit ""].
Definition new_lines : list jsstring :=
  [lit ""; lit "Show.S01E001.mkv"; lit "Show.S01E002.mkv"; lit ""].

(** A filled form whose session token is one space. *)
Definition app_space_token : Client.App :=
  Client.mkApp Client.tab_run (lit "12345678") (lit "a1b2c3") (lit "+15550100")
               (lit "@source") (lit "-1001234") false (lit " ")
               Examples.old_text Examples.new_text [] Examples.idle_job.

(** A status message that carries another session string, and one that
    carries the empty string. *)
Definition status_new_session : Client.StatusData :=
  Examples.status_at JobStatus.renaming 2 (Some (lit "2CWutPL")).
Definition status_empty_session : Client.StatusData :=
  Examples.status_at JobStatus.renaming 2 (Some []).

(** A status message that carries a first session string. *)
Definition status_first_session : Client.StatusData :=
  Examples.status_at JobStatus.renaming 1 (Some (lit "1BVtsOK")).

(** A job that waits for the login code, with a code typed in. *)
Definition app_waiting_for_code : Client.App :=
  Client.mkApp Client.tab_run (lit "12345678") (lit "a1b2c3") (lit "+15550100")
               (lit "@source") (lit "-1001234") false []
               Examples.old_text Examples.new_text (lit "12345")
               (Job.mk (Some (lit "job-1")) JobStatus.starting 0 2 [] None
                       true None 0 0 0).

(** A page on the run tab of the session-string client, and one on the
    files tab. *)
Definition session_app_polling : SessionClient.App :=
  SessionClient.mkApp (lit "1") (lit "h") (lit "s") (lit "-1") (lit "-2")
                      (lit "a.mkv") true [lit "old line"] 5 9 (lit "x.mkv")
                      SessionClient.tab_run.
Definition session_app_on_files : SessionClient.App :=
  SessionClient.mkApp (lit "1") (lit "h") (lit "s") (lit "-1") (lit "-2")
                      (lit "a.mkv") true [] 0 0 [] SessionClient.tab_files.

End Wording.

Import JS Num.

(* ================================================================== *)
(** ** Progress bar *)
(* ================================================================== *)

(** [Math.round] on the values the language definition singles out: ties
    go up, also below zero; the largest double below one half goes to
    zero; what rounds to zero from below is minus zero; NaN and the
    infinities pass. *)
Lemma Math_round_examples :
  Math_round 2.5%float = 3%float /\
  Math_round (-2.5)%float = (-2)%float /\
  Math_round 57.5%float = 58%float /\
  Math_round 0x1.fffffffffffffp-2%float = 0%float /\
  Math_round (-0.25)%float = (-0)%float /\
  Math_round (-0.5)%float = (-0)%float /\
  Math_round 0x1p+60%float = 0x1p+60%float /\
  Math_round nan = nan /\
  Math_round infinity = infinity.
Proof. repeat split; vm_compute; reflexivity. Qed.

Lemma pct_unfold (value max : number) :
  pct value max =
  if PrimFloat.ltb 0%float max
  then Math_round (PrimFloat.mul (PrimFloat.div value max) 100%float)
  else 0%float.
Proof.
  unfold pct, pct_expr; cbn [eval props fst].
  destruct (PrimFloat.ltb 0%float max); reflexivity.
Qed.

Lemma pct_divisions_unfold (value max : number) :
  pct_divisions value max = if PrimFloat.ltb 0%float max then 1 else 0.
Proof.
  unfold pct_divisions, pct_expr; cbn [eval props snd].
  destruct (PrimFloat.ltb 0%float max); reflexivity.
Qed.

(** C10 (amended).  The percentage is defined for every [value] and every
    [max].  When [max > 0] is false (zero, negative or NaN, so also for a
    job with [total = 0]) the percentage is [0] and no division is
    evaluated; when [max > 0] holds it is
    [Math.round((value / max) * 100)] in binary64 arithmetic, with exactly
    one division: the quotient is rounded to a double before it is scaled
    by 100. *)
Theorem ProgressBar_pct_guarded (value max : number) :
  (PrimFloat.ltb 0%float max = false ->
     pct value max = 0%float /\ pct_divisions value max = 0) /\
  (PrimFloat.ltb 0%float max = true ->
     pct value max
       = Math_round (PrimFloat.mul (PrimFloat.div value max) 100%float) /\
     pct_divisions value max = 1) /\
  (pct value 0%float = 0%float /\ pct_divisions value 0%float = 0).
Proof.
  rewrite !pct_unfold, !pct_divisions_unfold.
  split; [| split]; [intros -> | intros -> |]; split; reflexivity.
Qed.

Lemma ProgressBar_pct_guarded_witness :
  (pct 23%float 0%float = 0%float /\ pct_divisions 23%float 0%float = 0) /\
  (pct 23%float 40%float
     = Math_round (PrimFloat.mul (PrimFloat.div 23%float 40%float) 100%float) /\
   pct_divisions 23%float 40%float = 1).
Proof.
  split.
  - apply (proj1 (ProgressBar_pct_guarded 23%float 0%float)); reflexivity.
  - apply (proj1 (proj2 (ProgressBar_pct_guarded 23%float 40%float)));
      reflexivity.
Defined.

(** C10, as stated, fails for 23 files out of 40: the bar shows 57, while
    [round(100 * value / max)] is 58, in binary64 (the product 2300 and the
    quotient 57.5 are exact) and on exact integers alike. *)
Lemma ProgressBar_pct_23_of_40 :
  pct 23%float 40%float = 57%float /\
  pct_product_first 23%float 40%float = 58%float /\
  pct_exact 23 40 = 58%Z /\
  pct 23%float 40%float <> pct_product_first 23%float 40%float.
Proof.
  repeat split; try (vm_compute; reflexivity).
  intro H.
  apply (f_equal (fun x => PrimFloat.eqb x 57%float)) in H.
  vm_compute in H; discriminate H.
Qed.

(* ================================================================== *)
(** ** The mapping list *)
(* ================================================================== *)

Import Client.

(** [split_lf] cuts at the line feeds and nowhere else. *)
Lemma split_lf_cons (s : jsstring) : exists l ls, split_lf s = l :: ls.
Proof.
  induction s as [| c r (l & ls & E)]; cbn; [now eexists; eexists |].
  destruct (c =? 10)%N; [now eexists; eexists |].
  rewrite E. now eexists; eexists.
Qed.

Lemma join_lf_cons (l l' : jsstring) (ls : list jsstring) :
  join_lf (l :: l' :: ls) = l ++ 10%N :: join_lf (l' :: ls).
Proof. reflexivity. Qed.

Lemma join_split_lf (s : jsstring) : join_lf (split_lf s) = s.
Proof.
  induction s as [| c r IH]; cbn [split_lf]; [reflexivity |].
  destruct (split_lf_cons r) as (l & ls & E). rewrite E in IH |- *.
  destruct (c =? 10)%N eqn:Ec.
  - apply N.eqb_eq in Ec. subst c.
    rewrite join_lf_cons, IH. reflexivity.
  - destruct ls as [| l' ls].
    + cbn in IH |- *. now rewrite IH.
    + rewrite join_lf_cons in IH |- *. rewrite <- app_comm_cons.
      now rewrite IH.
Qed.

Lemma split_lf_no_lf (s l : jsstring) : In l (split_lf s) -> ~ In 10%N l.
Proof.
  revert l. induction s as [| c r IH]; cbn; intros l.
  - intros [<- | []]. tauto.
  - destruct (c =? 10)%N eqn:Ec.
    + intros [<- | H]; [tauto | now apply IH].
    + destruct (split_lf_cons r) as (l0 & ls & E). rewrite E in IH |- *.
      intros [<- | H].
      * intros [-> | H10]; [now rewrite N.eqb_refl in Ec |].
        apply (IH l0); [now left | exact H10].
      * apply IH. now right.
Qed.

(** A line is kept exactly when it has a code unit that is not
    whitespace. *)
Lemma trimStart_nil (s : jsstring) :
  trimStart s = [] <-> forallb is_space s = true.
Proof.
  induction s as [| c r IH]; cbn; [tauto |].
  destruct (is_space c); cbn; [exact IH | split; discriminate].
Qed.

Lemma trimStart_head (s r : jsstring) (c : code_unit) :
  trimStart s = c :: r -> is_space c = false.
Proof.
  induction s as [| x t IH]; cbn; [discriminate |].
  destruct (is_space x) eqn:Ex; [exact IH | congruence].
Qed.

Lemma trim_truthy (s : jsstring) :
  truthy (trim s) = negb (forallb is_space s).
Proof.
  unfold trim, trimEnd.
  destruct (trimStart s) as [| c r] eqn:E.
  - cbn. apply trimStart_nil in E. now rewrite E.
  - assert (Hs : forallb is_space s = false).
    { destruct (forallb is_space s) eqn:F; [| reflexivity].
      apply trimStart_nil in F. congruence. }
    rewrite Hs. cbn [negb].
    pose proof (trimStart_head s r c E) as Hc.
    destruct (trimStart (rev (c :: r))) as [| y t] eqn:E2.
    + apply trimStart_nil in E2. rewrite forallb_forall in E2.
      rewrite (E2 c) in Hc; [discriminate |].
      apply in_rev. rewrite rev_involutive. now left.
    + destruct (rev (y :: t)) eqn:E3; [| reflexivity].
      apply (f_equal (@length _)) in E3. rewrite length_rev in E3.
      discriminate E3.
Qed.

Lemma nonblank_lines_spec (text : jsstring) :
  nonblank_lines text
    = filter (fun l => negb (forallb is_space l)) (split_lf text).
Proof.
  unfold nonblank_lines. apply filter_ext. intros l. apply trim_truthy.
Qed.

Lemma pair_lines_spec (newLines oldLines : list jsstring) :
  forall i, i + length oldLines <= length newLines ->
  exists ms,
    pair_lines newLines i oldLines = Some ms /\
    length ms = length oldLines /\
    forall k o n,
      nth_error oldLines k = Some o ->
      nth_error newLines (i + k) = Some n ->
      nth_error ms k = Some {| old := trim o; new := trim n |}.
Proof.
  induction oldLines as [| o rest IH]; intros i Hlen; cbn [pair_lines].
  - exists []. repeat split. intros [| k] o n H; discriminate H.
  - cbn [length] in Hlen.
    destruct (nth_error newLines i) as [n0 |] eqn:Hn.
    + destruct (IH (S i)) as (ms & -> & Hl & Hnth); [lia |].
      eexists; split; [reflexivity |]; split; [cbn; now rewrite Hl |].
      intros [| k] o' n' Ho Hn'.
      * rewrite Nat.add_0_r in Hn'. cbn in Ho |- *. congruence.
      * cbn in Ho |- *. apply Hnth; [exact Ho |].
        now rewrite Nat.add_succ_comm.
    + apply nth_error_None in Hn. lia.
Qed.

(** The memo never throws: [newLines[i]] is read only when the two line
    counts agree. *)
Lemma mappings_total (oldNames newNames : jsstring) :
  exists ms, mappings oldNames newNames = Some ms.
Proof.
  unfold mappings.
  destruct (length (nonblank_lines oldNames) =? 0) eqn:H0; [now eexists |].
  destruct (length (nonblank_lines newNames) =? 0) eqn:H1; [now eexists |].
  destruct (length (nonblank_lines oldNames) =? length (nonblank_lines newNames))
    eqn:H2; [| now eexists].
  cbn [orb negb]. apply Nat.eqb_eq in H2.
  destruct (pair_lines_spec (nonblank_lines newNames) (nonblank_lines oldNames) 0)
    as (ms & Hms & _); [cbn; lia |].
  now exists ms.
Qed.

Lemma mappingsOf_spec (a : App) :
  mappings (oldNames a) (newNames a) = Some (mappingsOf a).
Proof.
  unfold mappingsOf.
  destruct (mappings_total (oldNames a) (newNames a)) as [ms ->].
  reflexivity.
Qed.

(** The memo in terms of its own line filter: with equally many kept
    lines, the i-th entry pairs the i-th kept old line with the i-th kept
    new line, each passed through [trim]; otherwise the list is empty. *)
Theorem mappings_pairs_nonblank_lines (oldNames newNames : jsstring) :
  (length (nonblank_lines oldNames) = length (nonblank_lines newNames) ->
   exists ms,
     mappings oldNames newNames = Some ms /\
     length ms = length (nonblank_lines oldNames) /\
     forall i o n,
       nth_error (nonblank_lines oldNames) i = Some o ->
       nth_error (nonblank_lines newNames) i = Some n ->
       nth_error ms i = Some {| old := trim o; new := trim n |}) /\
  (length (nonblank_lines oldNames) <> length (nonblank_lines newNames)
   \/ nonblank_lines oldNames = [] \/ nonblank_lines newNames = [] ->
   mappings oldNames newNames = Some []).
Proof.
  unfold mappings. split.
  - intros Heq.
    destruct (length (nonblank_lines oldNames) =? 0) eqn:H0.
    + apply Nat.eqb_eq in H0. exists []. cbn [orb].
      repeat split; [now rewrite H0 |].
      intros i o n Ho _. apply length_zero_iff_nil in H0.
      rewrite H0 in Ho. destruct i; discriminate Ho.
    + rewrite <- Heq, H0, Nat.eqb_refl. cbn [orb negb].
      apply (pair_lines_spec (nonblank_lines newNames)
                             (nonblank_lines oldNames) 0).
      cbn; lia.
  - intros [Hne | [Hnil | Hnil]].
    + apply Nat.eqb_neq in Hne. rewrite Hne. cbn [negb].
      now rewrite !orb_true_r.
    + now rewrite Hnil.
    + rewrite Hnil. cbn [length Nat.eqb]. now rewrite orb_true_r.
Qed.

(** The worked example of the mapping list. *)
Lemma mappings_example :
  mappings Examples.old_text Examples.new_text
    = Some [ {| old := lit "[AS] Episode 1.mkv"; new := lit "Show.S01E001.mkv" |};
             {| old := lit "[AS] Episode 2.mkv"; new := lit "Show.S01E002.mkv" |} ].
Proof. reflexivity. Qed.

Lemma mappings_pairs_nonblank_lines_witness :
  (exists ms,
     mappings Examples.old_text Examples.new_text = Some ms /\
     length ms = length (nonblank_lines Examples.old_text) /\
     forall i o n,
       nth_error (nonblank_lines Examples.old_text) i = Some o ->
       nth_error (nonblank_lines Examples.new_text) i = Some n ->
       nth_error ms i = Some {| old := trim o; new := trim n |}) /\
  mappings Examples.old_text (lit "only one.mkv") = Some [].
Proof.
  split.
  - apply (proj1 (mappings_pairs_nonblank_lines Examples.old_text Examples.new_text)).
    reflexivity.
  - apply (proj2 (mappings_pairs_nonblank_lines Examples.old_text (lit "only one.mkv"))).
    left. vm_compute. discriminate.
Defined.

(* ================================================================== *)
(** ** Starting a job *)
(* ================================================================== *)

Lemma truthy_true_iff (s : jsstring) : truthy s = true <-> s <> [].
Proof. destruct s; cbn; split; congruence. Qed.

Lemma truthy_false_iff (s : jsstring) : truthy s = false <-> s = [].
Proof. destruct s; cbn; split; congruence. Qed.

Lemma length_eqb_0 {A : Type} (l : list A) : (length l =? 0) = true <-> l = [].
Proof. destruct l; cbn; split; congruence. Qed.

Lemma ready_true_iff (a : App) :
  ready a = true <->
  apiId a <> [] /\ apiHash a <> [] /\ phone a <> [] /\
  srcChannel a <> [] /\ dstChannel a <> [].
Proof.
  unfold ready. rewrite !andb_true_iff, !truthy_true_iff. tauto.
Qed.

Lemma ready_false_iff (a : App) :
  ready a = false <->
  apiId a = [] \/ apiHash a = [] \/ phone a = [] \/
  srcChannel a = [] \/ dstChannel a = [].
Proof.
  unfold ready. rewrite !andb_false_iff, !truthy_false_iff. tauto.
Qed.

Lemma handleStart_rejected (a : App) :
  ready a = false \/ mappingsOf a = [] -> handleStart a = (a, []).
Proof.
  unfold handleStart. intros [-> | ->]; [reflexivity |].
  cbn [length Nat.eqb]. now rewrite orb_true_r.
Qed.

Lemma handleStart_accepted (a : App) :
  ready a = true -> mappingsOf a <> [] ->
  handleStart a =
    (setActiveTab (setJob a (new_job (length (mappingsOf a)))) tab_run,
     [fetch_start_rename (start_body a)]).
Proof.
  unfold handleStart. intros -> Hms.
  destruct (length (mappingsOf a) =? 0) eqn:H0; [| reflexivity].
  apply length_eqb_0 in H0. contradiction.
Qed.

(** C1 (amended).  A start request is rejected, leaving the whole state as
    it was and sending nothing, when the mapping list is empty or one of
    API ID, API hash, phone number, source channel, destination channel is
    empty; with a non-empty mapping list and the five fields non-empty
    (a field of whitespace only is not empty) the job state is replaced by
    a new job in status [starting] and the start call is sent. *)
Theorem handleStart_rejects_or_creates_job (a : App) :
  (mappingsOf a = [] \/ apiId a = [] \/ apiHash a = [] \/ phone a = [] \/
   srcChannel a = [] \/ dstChannel a = [] ->
   handleStart a = (a, [])) /\
  (mappingsOf a <> [] -> apiId a <> [] -> apiHash a <> [] -> phone a <> [] ->
   srcChannel a <> [] -> dstChannel a <> [] ->
   handleStart a =
     (setActiveTab (setJob a (new_job (length (mappingsOf a)))) tab_run,
      [fetch_start_rename (start_body a)]) /\
   status (job (fst (handleStart a))) = JobStatus.starting).
Proof.
  split.
  - intros H. apply handleStart_rejected.
    rewrite ready_false_iff. tauto.
  - intros Hms H1 H2 H3 H4 H5.
    rewrite handleStart_accepted; [now split | | exact Hms].
    apply ready_true_iff. tauto.
Qed.

Lemma handleStart_rejects_or_creates_job_witness :
  handleStart Examples.app_no_phone = (Examples.app_no_phone, []) /\
  (handleStart Examples.app_ready =
     (setActiveTab
        (setJob Examples.app_ready
                (new_job (length (mappingsOf Examples.app_ready)))) tab_run,
      [fetch_start_rename (start_body Examples.app_ready)]) /\
   status (job (fst (handleStart Examples.app_ready))) = JobStatus.starting).
Proof.
  split.
  - apply (proj1 (handleStart_rejects_or_creates_job Examples.app_no_phone)).
    right; right; right; left. reflexivity.
  - apply (proj2 (handleStart_rejects_or_creates_job Examples.app_ready));
      vm_compute; discriminate.
Defined.

(** The start button is disabled exactly when [handleStart] would return
    at once. *)
Lemma RunTab_start_disabled_rejected (a : App) :
  RunTab_start_disabled a = true -> handleStart a = (a, []).
Proof. unfold RunTab_start_disabled, handleStart. now intros ->. Qed.

(** C1, as stated, fails on a required field of whitespace only: with a
    phone number made of one space (blank, and empty once trimmed), the
    other four fields filled and two mappings, the request is not
    rejected: the job state is replaced by a new job in status [starting]
    and the start call is sent, with the space as phone number. *)
Lemma handleStart_accepts_blank_phone :
  Wording.blank (phone Examples.app_space_phone) = true /\
  trim (phone Examples.app_space_phone) = [] /\
  length (mappingsOf Examples.app_space_phone) = 2 /\
  handleStart Examples.app_space_phone <> (Examples.app_space_phone, []) /\
  status (job (fst (handleStart Examples.app_space_phone)))
    = JobStatus.starting /\
  (exists b,
     snd (handleStart Examples.app_space_phone) = [fetch_start_rename b] /\
     StartRename.phone b = lit " ").
Proof.
  repeat split; try reflexivity.
  - vm_compute. discriminate.
  - eexists. split; reflexivity.
Qed.

(** The session-string client has the same gate over its own fields:
    nothing is posted, and the state is kept, when no file name is given
    or one of API ID, API hash, session string, source and destination
    chat is empty. *)
Lemma startTask_rejected (failure : option jsstring) (a : SessionClient.App) :
  SessionClient.namesList a = [] \/ SessionClient.apiId a = [] \/
  SessionClient.apiHash a = [] \/ SessionClient.sessionString a = [] \/
  SessionClient.sourceChatId a = [] \/ SessionClient.destChatId a = [] ->
  fst (SessionClient.startTask failure a) = a /\
  existsb SessionClient.is_post (snd (SessionClient.startTask failure a)) = false.
Proof.
  unfold SessionClient.startTask. intros H.
  destruct (length (SessionClient.namesList a) =? 0) eqn:H0; [now split |].
  assert (Hn : SessionClient.namesList a <> [])
    by (intros E; apply length_eqb_0 in E; congruence).
  destruct H as [H | H]; [contradiction |].
  assert (G : negb (truthy (SessionClient.apiId a))
              || negb (truthy (SessionClient.apiHash a))
              || negb (truthy (SessionClient.sessionString a))
              || negb (truthy (SessionClient.sourceChatId a))
              || negb (truthy (SessionClient.destChatId a)) = true).
  { rewrite !orb_true_iff, !negb_true_iff, !truthy_false_iff. tauto. }
  rewrite G. now split.
Qed.

Lemma startTask_accepted (failure : option jsstring) (a : SessionClient.App) :
  SessionClient.namesList a <> [] -> SessionClient.apiId a <> [] ->
  SessionClient.apiHash a <> [] -> SessionClient.sessionString a <> [] ->
  SessionClient.sourceChatId a <> [] -> SessionClient.destChatId a <> [] ->
  existsb SessionClient.is_post (snd (SessionClient.startTask failure a)) = true.
Proof.
  unfold SessionClient.startTask. intros Hn H1 H2 H3 H4 H5.
  destruct (length (SessionClient.namesList a) =? 0) eqn:H0.
  { apply length_eqb_0 in H0. contradiction. }
  apply truthy_true_iff in H1, H2, H3, H4, H5.
  rewrite H1, H2, H3, H4, H5. cbn [negb orb].
  destruct failure; reflexivity.
Qed.

Lemma startTask_posts_when_filled :
  snd (SessionClient.startTask None Examples.session_app_filled)
    = [SessionClient.post_start
         {| SessionClient.api_id := SessionClient.parseInt (lit "12345678");
            SessionClient.api_hash := lit "a1b2c3";
            SessionClient.session_string := lit "BQAbcd";
            SessionClient.source_chat_id := lit "-100123456789";
            SessionClient.dest_chat_id := lit "-100987654321";
            SessionClient.filenames := [lit "Show.S01E001.mkv"];
            SessionClient.start_index := 0 |}].
Proof. reflexivity. Qed.

(** C3 (amended).  In the phone/OTP client the session token is optional:
    with the five required fields non-empty and a non-empty mapping list,
    [handleStart] creates the job and sends the start call whatever the
    token is, with [session_string: null] when the token is empty and
    with the token as typed when it is not (a token of whitespace only
    included).  In the session-string client the session string is itself
    a required field: with an empty one [startTask] keeps the state and
    sends no start call. *)
Theorem session_token_optional_in_handleStart (a : App) :
  (mappingsOf a <> [] -> apiId a <> [] -> apiHash a <> [] -> phone a <> [] ->
   srcChannel a <> [] -> dstChannel a <> [] ->
   exists b,
     handleStart a =
       (setActiveTab (setJob a (new_job (length (mappingsOf a)))) tab_run,
        [fetch_start_rename b]) /\
     (sessionString a = [] -> StartRename.session_string b = None) /\
     (sessionString a <> [] ->
      StartRename.session_string b = Some (sessionString a))) /\
  (forall (failure : option jsstring) (s : SessionClient.App),
     SessionClient.sessionString s = [] ->
     fst (SessionClient.startTask failure s) = s /\
     existsb SessionClient.is_post (snd (SessionClient.startTask failure s))
       = false).
Proof.
  split.
  - intros Hms H1 H2 H3 H4 H5. exists (start_body a). split; [| split].
    + apply handleStart_accepted; [| exact Hms].
      apply ready_true_iff. tauto.
    + intros Hs. unfold start_body; cbn. now rewrite Hs.
    + intros Hs. unfold start_body, or_null; cbn.
      apply truthy_true_iff in Hs. now rewrite Hs.
  - intros failure s Hs. apply startTask_rejected. tauto.
Qed.

Lemma session_token_optional_in_handleStart_witness :
  (exists b,
     handleStart Examples.app_ready =
       (setActiveTab
          (setJob Examples.app_ready
                  (new_job (length (mappingsOf Examples.app_ready)))) tab_run,
        [fetch_start_rename b]) /\
     StartRename.session_string b = None) /\
  (fst (SessionClient.startTask None Examples.session_app_blank)
     = Examples.session_app_blank /\
   existsb SessionClient.is_post
           (snd (SessionClient.startTask None Examples.session_app_blank))
     = false).
Proof.
  split.
  - destruct (proj1 (session_token_optional_in_handleStart Examples.app_ready))
      as (b & Hb & Hnull & _); try (vm_compute; discriminate).
    exists b. split; [exact Hb | apply Hnull; reflexivity].
  - apply (proj2 (session_token_optional_in_handleStart Examples.app_ready)
                 None Examples.session_app_blank).
    reflexivity.
Defined.

(** C3, as stated, fails on a token of whitespace only: with the five
    required fields filled, two mappings and a session token made of one
    space (blank, and empty once trimmed), the request is not rejected,
    but the token is transmitted as that space, not as null. *)
Lemma handleStart_sends_blank_token :
  ready Wording.app_space_token = true /\
  length (mappingsOf Wording.app_space_token) = 2 /\
  Wording.blank (sessionString Wording.app_space_token) = true /\
  trim (sessionString Wording.app_space_token) = [] /\
  (exists b,
     snd (handleStart Wording.app_space_token) = [fetch_start_rename b] /\
     StartRename.session_string b = Some (lit " ") /\
     StartRename.session_string b <> None).
Proof.
  repeat split; try reflexivity.
  eexists. split; [reflexivity |]. split; [reflexivity | discriminate].
Qed.

(** In the session-string client, with API ID, API hash, both chats and a
    file name given and only the session string empty, the request is
    rejected with "Please fill in all configuration fields." and nothing
    is posted. *)
Lemma startTask_requires_session_string :
  SessionClient.namesList Examples.session_app_blank <> [] /\
  SessionClient.apiId Examples.session_app_blank <> [] /\
  SessionClient.apiHash Examples.session_app_blank <> [] /\
  SessionClient.sourceChatId Examples.session_app_blank <> [] /\
  SessionClient.destChatId Examples.session_app_blank <> [] /\
  SessionClient.sessionString Examples.session_app_blank = [] /\
  SessionClient.startTask None Examples.session_app_blank
    = (Examples.session_app_blank,
       [SessionClient.alert SessionClient.fill_in_all]).
Proof. repeat split; vm_compute; discriminate. Qed.

(* ================================================================== *)
(** ** The job state along the event stream *)
(* ================================================================== *)

(** Case analysis on an event, down to the kind of message and the ending
    of the start request. *)
Ltac case_event e :=
  let message := fresh "message" in
  let d := fresh "d" in
  let job_id := fresh "job_id" in
  let text := fresh "text" in
  destruct e as [[message | d |] | | [job_id | text | message]].

Lemma run_events_snoc (j : JobState) (es : list JobEvent) (e : JobEvent) :
  run_events j (es ++ [e]) = step (run_events j es) e.
Proof. unfold run_events. now rewrite fold_left_app. Qed.

Lemma run_events_app (j : JobState) (es1 es2 : list JobEvent) :
  run_events j (es1 ++ es2) = run_events (run_events j es1) es2.
Proof. unfold run_events. now rewrite fold_left_app. Qed.

Lemma forallb_firstn {A : Type} (f : A -> bool) (k : nat) (l : list A) :
  forallb f l = true -> forallb f (firstn k l) = true.
Proof.
  revert k; induction l as [| x l IH]; intros [| k] H; cbn in *; try easy.
  apply andb_true_iff in H as [-> H]. now apply IH.
Qed.

(** The bounds on [progress] and [total] for a job over [n] mappings. *)
Lemma step_keeps_bounds (n : nat) (j : JobState) (e : JobEvent) :
  (progress j <= total j)%Z /\ total j = Z.of_nat n ->
  reports_bounds n e = true ->
  (progress (step j e) <= total (step j e))%Z /\ total (step j e) = Z.of_nat n.
Proof.
  intros Hj He. case_event e; cbn in *; try exact Hj.
  apply andb_true_iff in He as [Hp Ht].
  apply Z.leb_le in Hp. apply Z.eqb_eq in Ht. now split.
Qed.

(** Only a status message writes [progress] and [total]. *)
Lemma step_frame (j : JobState) (e : JobEvent) :
  (forall d, e <> ev_message (ws_status d)) ->
  progress (step j e) = progress j /\ total (step j e) = total j.
Proof.
  intros He. case_event e; cbn; try (now split).
  now destruct (He d).
Qed.

Lemma run_keeps_bounds (n : nat) (es : list JobEvent) :
  forall j,
  (progress j <= total j)%Z /\ total j = Z.of_nat n ->
  forallb (reports_bounds n) es = true ->
  (progress (run_events j es) <= total (run_events j es))%Z /\
  total (run_events j es) = Z.of_nat n.
Proof.
  induction es as [| e es IH]; intros j Hj Hes; [exact Hj |].
  cbn in Hes. apply andb_true_iff in Hes as [He Hes].
  apply (IH (step j e)); [now apply step_keeps_bounds | exact Hes].
Qed.

(** C5 (amended).  Immediately after a start request is accepted,
    [progress] is 0 and [total] is the length of the mapping list.  A
    status message overwrites both with the values it carries, and no
    other event changes them; so after every prefix of the event stream
    [progress <= total] and [total] is the number of mappings, provided
    each status message received reports a progress within its total and
    that number as its total. *)
Theorem progress_within_total (a : App) (es : list JobEvent) :
  ready a = true -> mappingsOf a <> [] ->
  let n := length (mappingsOf a) in
  let j0 := job (fst (handleStart a)) in
  (progress j0 = 0%Z /\ total j0 = Z.of_nat n) /\
  (forall d j, progress (onmessage (ws_status d) j) = d_progress d /\
               total (onmessage (ws_status d) j) = d_total d) /\
  (forall e j, (forall d, e <> ev_message (ws_status d)) ->
               progress (step j e) = progress j /\ total (step j e) = total j) /\
  (forallb (reports_bounds n) es = true ->
   forall k,
     (progress (run_events j0 (firstn k es))
        <= total (run_events j0 (firstn k es)))%Z /\
     total (run_events j0 (firstn k es)) = Z.of_nat n).
Proof.
  intros Hr Hms n j0. subst n j0.
  rewrite (handleStart_accepted a Hr Hms). cbn [fst job setActiveTab setJob].
  split; [now split |]. split; [now split |].
  split; [intros e j He; now apply step_frame |].
  intros Hes k. apply run_keeps_bounds.
  - cbn. split; [lia | reflexivity].
  - now apply forallb_firstn.
Qed.

Lemma progress_within_total_witness :
  (progress Examples.started_job = 0%Z /\ total Examples.started_job = 2%Z) /\
  (progress (run_events Examples.started_job Examples.run_trace)
     <= total (run_events Examples.started_job Examples.run_trace))%Z /\
  total (run_events Examples.started_job Examples.run_trace) = 2%Z.
Proof.
  assert (Hr : ready Examples.app_ready = true) by reflexivity.
  assert (Hms : mappingsOf Examples.app_ready <> [])
    by (vm_compute; discriminate).
  destruct (progress_within_total Examples.app_ready Examples.run_trace Hr Hms)
    as (H0 & _ & _ & Hrun).
  split; [exact H0 |].
  exact (Hrun eq_refl (length Examples.run_trace)).
Defined.

(** C5, as stated, fails on a status message that reports 3 of 2: the
    client stores both numbers as they come, for a job over 2 mappings. *)
Lemma status_message_overrides_bounds :
  length (mappingsOf Examples.app_ready) = 2 /\
  progress (run_events Examples.started_job
                       [ev_message (ws_status Examples.status_over)]) = 3%Z /\
  total (run_events Examples.started_job
                    [ev_message (ws_status Examples.status_over)]) = 2%Z /\
  ~ (progress (run_events Examples.started_job
                          [ev_message (ws_status Examples.status_over)])
       <= total (run_events Examples.started_job
                            [ev_message (ws_status Examples.status_over)]))%Z.
Proof. repeat split. vm_compute. intros H; apply H; reflexivity. Qed.

(** C7.  Between two starts the log only grows at its end: each event
    leaves [logs] as it is or appends one entry, and whatever the events,
    the log after a stretch of them is the log before it followed by the
    added entries. *)
Theorem logs_append_only (j : JobState) (es1 es2 : list JobEvent) :
  (forall e, logs (step j e) = logs j \/
             exists entry, logs (step j e) = logs j ++ [entry]) /\
  exists added,
    logs (run_events j (es1 ++ es2)) = logs (run_events j es1) ++ added.
Proof.
  assert (Hstep : forall j0 e, logs (step j0 e) = logs j0 \/
             exists entry, logs (step j0 e) = logs j0 ++ [entry]).
  { intros j0 e; case_event e; cbn;
      try (now left); right; eexists; reflexivity. }
  split; [apply Hstep |].
  rewrite run_events_app. generalize (run_events j es1) as j1.
  induction es2 as [| e es IH] using rev_ind; intros j1.
  - exists []. cbn. now rewrite app_nil_r.
  - destruct (IH j1) as [added Hadd]. rewrite run_events_snoc.
    destruct (Hstep (run_events j1 es) e) as [-> | [entry ->]].
    + now exists added.
    + exists (added ++ [entry]). now rewrite Hadd, app_assoc.
Qed.

(** A new start is what ends a log: it replaces the job state, log
    included, by the one-line state of a new job. *)
Lemma handleStart_resets_logs (a : App) :
  ready a = true -> mappingsOf a <> [] ->
  logs (job (fst (handleStart a))) = [connecting_line].
Proof. intros Hr Hms. now rewrite handleStart_accepted. Qed.

Lemma status_keeps_session (d : StatusData) (j : JobState) :
  d_session_string d = None ->
  Job.sessionString (onmessage (ws_status d) j) = Job.sessionString j.
Proof. intros H. cbn. now rewrite H. Qed.

Lemma step_keeps_session (j : JobState) (e : JobEvent) :
  no_session_string e = true ->
  Job.sessionString (step j e) = Job.sessionString j.
Proof.
  case_event e; cbn; try reflexivity.
  destruct (d_session_string d); [discriminate | reflexivity].
Qed.

Lemma step_session_not_reset (j : JobState) (e : JobEvent) :
  Job.sessionString j <> None -> Job.sessionString (step j e) <> None.
Proof.
  case_event e; cbn; try easy.
  destruct (d_session_string d); easy.
Qed.

(** C8 (amended).  A status message whose [session_string] is null or
    absent leaves the stored session string as it is.  So a session string
    held by the job stays over every later stretch of events whose status
    messages carry none, and over any stretch of events whatever it is
    never reset to null: only a status message with another non-null
    session string replaces it, by that string. *)
Theorem session_string_persists (j : JobState) (es : list JobEvent) :
  (forall d, d_session_string d = None ->
     Job.sessionString (onmessage (ws_status d) j) = Job.sessionString j) /\
  (forall d s, d_session_string d = Some s ->
     Job.sessionString (onmessage (ws_status d) j) = Some s) /\
  (forallb no_session_string es = true ->
     Job.sessionString (run_events j es) = Job.sessionString j) /\
  (Job.sessionString j <> None -> Job.sessionString (run_events j es) <> None).
Proof.
  split; [intros d; apply status_keeps_session |].
  split; [intros d s H; cbn; now rewrite H |].
  split.
  - revert j. induction es as [| e es IH]; intros j H; [reflexivity |].
    cbn in H. apply andb_true_iff in H as [He Hes].
    cbn. change (fold_left step es (step j e)) with (run_events (step j e) es).
    rewrite IH by exact Hes. now apply step_keeps_session.
  - revert j. induction es as [| e es IH]; intros j H; [exact H |].
    cbn. change (fold_left step es (step j e)) with (run_events (step j e) es).
    apply IH. now apply step_session_not_reset.
Qed.

Lemma session_string_persists_witness :
  Job.sessionString
    (onmessage (ws_status (Examples.status_at JobStatus.renaming 2 None))
               Examples.job_with_session)
    = Some (lit "1BVtsOK") /\
  Job.sessionString
    (onmessage (ws_status Wording.status_new_session) Examples.job_with_session)
    = Some (lit "2CWutPL") /\
  Job.sessionString (run_events Examples.job_with_session Examples.run_trace)
    = Some (lit "1BVtsOK") /\
  Job.sessionString (run_events Examples.job_with_session Examples.run_trace)
    <> None.
Proof.
  destruct (session_string_persists Examples.job_with_session Examples.run_trace)
    as (H1 & H2 & H3 & H4).
  split; [| split; [| split]].
  - exact (H1 (Examples.status_at JobStatus.renaming 2 None) eq_refl).
  - exact (H2 Wording.status_new_session (lit "2CWutPL") eq_refl).
  - exact (H3 eq_refl).
  - apply H4. vm_compute. discriminate.
Defined.

(** C8, as stated, fails once a later status message carries another
    session string: a started job receives "1BVtsOK" and holds it; the
    next status message carries "2CWutPL", and the job holds that one
    instead; a status message with the empty string leaves the job with
    the empty string. *)
Lemma later_status_replaces_session_string :
  Job.sessionString
    (run_events Examples.started_job
                [ev_message (ws_status Wording.status_first_session)])
    = Some (lit "1BVtsOK") /\
  Job.sessionString
    (run_events Examples.started_job
                [ev_message (ws_status Wording.status_first_session);
                 ev_message (ws_status Wording.status_new_session)])
    = Some (lit "2CWutPL") /\
  Job.sessionString
    (run_events Examples.started_job
                [ev_message (ws_status Wording.status_first_session);
                 ev_message (ws_status Wording.status_empty_session)])
    = Some [] /\
  lit "1BVtsOK" <> lit "2CWutPL" /\ lit "1BVtsOK" <> [].
Proof. repeat split; try reflexivity; vm_compute; discriminate. Qed.

(** C9.  A log message changes the [logs] field only, by appending the
    message: status, progress, total, needsOtp, error, sessionString,
    renamed, failed and notFound (and the job identifier) keep their
    values. *)
Theorem log_message_frame (message : jsstring) (j : JobState) :
  let j' := onmessage (ws_log message) j in
  logs j' = logs j ++ [message] /\
  jobId j' = jobId j /\ status j' = status j /\ progress j' = progress j /\
  total j' = total j /\ needsOtp j' = needsOtp j /\ error j' = error j /\
  Job.sessionString j' = Job.sessionString j /\ renamed j' = renamed j /\
  failed j' = failed j /\ notFound j' = notFound j.
Proof. cbn. repeat split. Qed.

(* ================================================================== *)
(** ** Submitting the OTP *)
(* ================================================================== *)

(** The handler and the page: [handleSubmitOtp] never changes the job
    state; it is a no-op (state kept, nothing sent) when the job has no
    identifier or no code is typed in, and with an identifier and a code
    it sends the code.  The page offers the operation only while
    [needsOtp] is true: submitting from [RunTab] with [needsOtp] false
    keeps the state and sends nothing. *)
Theorem handleSubmitOtp_guard (resolves : bool) (a : App) :
  job (fst (handleSubmitOtp resolves a)) = job a /\
  (truthy_opt (jobId (job a)) = false \/ otp a = [] ->
   handleSubmitOtp resolves a = (a, [])) /\
  (forall id, jobId (job a) = Some id -> id <> [] -> otp a <> [] ->
   snd (handleSubmitOtp resolves a) = [fetch_submit_otp id (otp a)]) /\
  (needsOtp (job a) = false -> RunTab_submitOtp resolves a = (a, [])).
Proof.
  unfold RunTab_submitOtp, RunTab_shows_otp, handleSubmitOtp.
  repeat split.
  - destruct (jobId (job a)) as [id |]; [| reflexivity].
    destruct (negb (truthy id) || negb (truthy (otp a))); [reflexivity |].
    now destruct resolves.
  - intros [H | H]; destruct (jobId (job a)) as [id |]; try reflexivity.
    + cbn in H. now rewrite H.
    + rewrite H. cbn. now rewrite orb_true_r.
  - intros id -> Hid Hotp.
    apply truthy_true_iff in Hid, Hotp. now rewrite Hid, Hotp.
  - now intros ->.
Qed.

Lemma handleSubmitOtp_guard_witness :
  handleSubmitOtp true Examples.app_ready = (Examples.app_ready, []) /\
  snd (handleSubmitOtp true Examples.app_code_typed)
    = [fetch_submit_otp (lit "job-1") (lit "12345")] /\
  RunTab_submitOtp true Examples.app_code_typed = (Examples.app_code_typed, []).
Proof.
  split; [| split].
  - apply (proj1 (proj2 (handleSubmitOtp_guard true Examples.app_ready))).
    left; reflexivity.
  - apply (proj1 (proj2 (proj2 (handleSubmitOtp_guard true Examples.app_code_typed)))
                 (lit "job-1")); [reflexivity | |]; vm_compute; discriminate.
  - apply (proj2 (proj2 (proj2 (handleSubmitOtp_guard true Examples.app_code_typed)))).
    reflexivity.
Defined.

(** The handler itself does not read [needsOtp]: called directly for a
    running job with [needsOtp] false, an identifier and a typed code, it
    sends the code and clears the input (the page never calls it so). *)
Lemma handleSubmitOtp_sends_without_needsOtp :
  needsOtp (job Examples.app_code_typed) = false /\
  handleSubmitOtp true Examples.app_code_typed
    = (setOtp Examples.app_code_typed [],
       [fetch_submit_otp (lit "job-1") (lit "12345")]).
Proof. split; reflexivity. Qed.

(** C6.  While [needsOtp] is false, submitting the code is a no-op: the
    page offers the operation only in the panel it renders under
    [job.needsOtp], so no code is sent and the state, the job state
    included, is as it was.  (While [needsOtp] is true the operation is
    the handler, which sends the typed code for the job; in no case does it
    change the job state.) *)
Theorem submitOtp_noop_without_needsOtp (resolves : bool) (a : App) :
  (needsOtp (job a) = false ->
   snd (RunTab_submitOtp resolves a) = [] /\
   fst (RunTab_submitOtp resolves a) = a) /\
  (needsOtp (job a) = true ->
   RunTab_submitOtp resolves a = handleSubmitOtp resolves a /\
   forall id, jobId (job a) = Some id -> id <> [] -> otp a <> [] ->
     snd (RunTab_submitOtp resolves a) = [fetch_submit_otp id (otp a)]) /\
  job (fst (RunTab_submitOtp resolves a)) = job a.
Proof.
  unfold RunTab_submitOtp, RunTab_shows_otp. split; [| split].
  - now intros ->.
  - intros ->. split; [reflexivity |]. intros id Hid Hne Hotp.
    unfold handleSubmitOtp. rewrite Hid.
    apply truthy_true_iff in Hne, Hotp. now rewrite Hne, Hotp.
  - destruct (needsOtp (job a)); [| reflexivity].
    unfold handleSubmitOtp.
    destruct (jobId (job a)) as [id |]; [| reflexivity].
    destruct (negb (truthy id) || negb (truthy (otp a))); [reflexivity |].
    now destruct resolves.
Qed.

Lemma submitOtp_noop_without_needsOtp_witness :
  (snd (RunTab_submitOtp true Examples.app_code_typed) = [] /\
   fst (RunTab_submitOtp true Examples.app_code_typed)
     = Examples.app_code_typed) /\
  snd (RunTab_submitOtp true Wording.app_waiting_for_code)
    = [fetch_submit_otp (lit "job-1") (lit "12345")].
Proof.
  split.
  - apply (proj1 (submitOtp_noop_without_needsOtp true Examples.app_code_typed)).
    reflexivity.
  - apply (proj2 (proj1 (proj2 (submitOtp_noop_without_needsOtp
                                  true Wording.app_waiting_for_code))
                        eq_refl) (lit "job-1"));
      [reflexivity | |]; vm_compute; discriminate.
Defined.

(* ================================================================== *)
(** ** Matching precedence *)
(* ================================================================== *)



Section MatcherFacts.

Variable normalize : jsstring -> jsstring.
Variable episode_number : jsstring -> option N.





End MatcherFacts.


(** The scenarios of the specification: a name that differs in case is
    found by tier 2; an exact name is preferred to it; a consumed entry is
    not offered again; an empty index finds nothing. *)
Lemma matcher_scenarios :
  Examples.spec_match [] [Examples.entry 10 "OLD1.mkv"] (lit "old1.mkv")
    = Some (Examples.entry 10 "OLD1.mkv", Matcher.normalized) /\
  Examples.spec_match [] Examples.index (lit "old1.mkv")
    = Some (Examples.entry 11 "old1.mkv", Matcher.exact) /\
  Examples.spec_match [11%Z] Examples.index (lit "old1.mkv")
    = Some (Examples.entry 10 "OLD1.mkv", Matcher.normalized) /\
  Examples.spec_match [11%Z; 10%Z] Examples.index (lit "old1.mkv")
    = Some (Examples.entry 12 "Other 1 [x].mkv", Matcher.episode) /\
  Examples.spec_match [] [] (lit "old1.mkv") = None.
Proof. repeat split. Qed.

(* ================================================================== *)
(** ** What [trim] and [split] leave *)
(* ================================================================== *)

Lemma trimStart_decompose (s : jsstring) :
  exists p, s = p ++ trimStart s /\ forallb is_space p = true.
Proof.
  induction s as [| c r (p & Hp & Hall)]; [now exists [] |].
  cbn [trimStart]. destruct (is_space c) eqn:Ec.
  - exists (c :: p). cbn. rewrite Ec, Hall. split; [now f_equal | reflexivity].
  - now exists [].
Qed.

Lemma trimStart_fixed (s : jsstring) :
  (forall c r, s = c :: r -> is_space c = false) -> trimStart s = s.
Proof.
  destruct s as [| c r]; [reflexivity |]. intros H. cbn.
  now rewrite (H c r eq_refl).
Qed.

Lemma trim_decompose (s : jsstring) :
  exists p q, s = p ++ trim s ++ q /\
              forallb is_space p = true /\ forallb is_space q = true.
Proof.
  unfold trim, trimEnd.
  destruct (trimStart_decompose s) as (p & Hp & Hall).
  destruct (trimStart_decompose (rev (trimStart s))) as (q & Hq & Hallq).
  exists p, (rev q). repeat split; [| exact Hall |].
  - rewrite <- rev_app_distr, <- Hq, rev_involutive. exact Hp.
  - rewrite forallb_forall in Hallq |- *. intros x Hx.
    apply Hallq. now apply in_rev.
Qed.

Lemma trim_incl (s : jsstring) (c : code_unit) : In c (trim s) -> In c s.
Proof.
  destruct (trim_decompose s) as (p & q & E & _). intros H.
  rewrite E. apply in_or_app. right. apply in_or_app. now left.
Qed.

Lemma trim_head (s r : jsstring) (c : code_unit) :
  trim s = c :: r -> is_space c = false.
Proof.
  unfold trim, trimEnd. intros E.
  destruct (trimStart_decompose (rev (trimStart s))) as (q & Hq & _).
  apply (f_equal (@rev _)) in Hq.
  rewrite rev_involutive, rev_app_distr, E in Hq. cbn in Hq.
  now apply (trimStart_head s (r ++ rev q) c).
Qed.

Lemma trim_last (s r : jsstring) (c : code_unit) :
  trim s = r ++ [c] -> is_space c = false.
Proof.
  unfold trim, trimEnd. intros E.
  apply (f_equal (@rev _)) in E.
  rewrite rev_involutive, rev_app_distr in E. cbn in E.
  now apply (trimStart_head (rev (trimStart s)) (rev r) c).
Qed.

Lemma trim_idempotent (s : jsstring) : trim (trim s) = trim s.
Proof.
  assert (H1 : trimStart (trim s) = trim s).
  { apply trimStart_fixed. intros c r. apply trim_head. }
  unfold trim at 1. rewrite H1. unfold trimEnd.
  rewrite trimStart_fixed; [apply rev_involutive |].
  intros c r E. apply (f_equal (@rev _)) in E.
  rewrite rev_involutive in E. cbn in E.
  now apply (trim_last s (rev r) c).
Qed.

Lemma split_lf_app (s t : jsstring) :
  split_lf (s ++ 10%N :: t) = split_lf s ++ split_lf t.
Proof.
  induction s as [| c r IH]; cbn [split_lf app].
  - reflexivity.
  - rewrite IH. destruct (c =? 10)%N; [reflexivity |].
    destruct (split_lf_cons r) as (l & ls & E). now rewrite E.
Qed.

Lemma split_lf_line (l : jsstring) : ~ In 10%N l -> split_lf l = [l].
Proof.
  induction l as [| c r IH]; intros H; cbn [split_lf]; [reflexivity |].
  destruct (c =? 10)%N eqn:Ec.
  - apply N.eqb_eq in Ec. subst c. exfalso. apply H. now left.
  - rewrite IH; [reflexivity |]. intros Hin. apply H. now right.
Qed.

Lemma nonblank_lines_app (s t : jsstring) :
  nonblank_lines (s ++ 10%N :: t) = nonblank_lines s ++ nonblank_lines t.
Proof. unfold nonblank_lines. now rewrite split_lf_app, filter_app. Qed.

Lemma nonblank_line_clean (text l : jsstring) :
  In l (nonblank_lines text) ->
  trim l <> [] /\ trim (trim l) = trim l /\ ~ In 10%N (trim l).
Proof.
  unfold nonblank_lines. intros H. apply filter_In in H as [Hin Ht].
  split; [now apply truthy_true_iff |]. split; [apply trim_idempotent |].
  intros H10. apply trim_incl in H10. now apply (split_lf_no_lf text l).
Qed.

(* ================================================================== *)
(** ** The mapping list, in closed form *)
(* ================================================================== *)

Lemma skipn_nth_error {A : Type} (l : list A) (i : nat) (x : A) :
  nth_error l i = Some x -> skipn i l = x :: skipn (S i) l.
Proof.
  revert i; induction l as [| y l IH]; intros [| i] H; try discriminate H.
  - cbn in H. now injection H as ->.
  - cbn in H. cbn [skipn]. now apply IH.
Qed.

Lemma pair_lines_zip (newLines oldLines : list jsstring) :
  forall i, i + length oldLines <= length newLines ->
  pair_lines newLines i oldLines
    = Some (MappingTab.zip_lines oldLines (skipn i newLines)).
Proof.
  induction oldLines as [| o rest IH]; intros i Hlen; cbn [pair_lines].
  - reflexivity.
  - cbn [length] in Hlen.
    destruct (nth_error newLines i) as [n |] eqn:Hn.
    + rewrite IH by lia. now rewrite (skipn_nth_error newLines i n Hn).
    + apply nth_error_None in Hn. lia.
Qed.

Lemma zip_lines_nil_r (oldLines : list jsstring) :
  MappingTab.zip_lines oldLines [] = [].
Proof. unfold MappingTab.zip_lines. now rewrite combine_nil. Qed.

Lemma mappings_zip (oldNames newNames : jsstring) :
  mappings oldNames newNames
    = Some (if length (nonblank_lines oldNames)
               =? length (nonblank_lines newNames)
            then MappingTab.zip_lines (nonblank_lines oldNames)
                                      (nonblank_lines newNames)
            else []).
Proof.
  unfold mappings.
  destruct (length (nonblank_lines oldNames) =? 0) eqn:H0.
  { apply length_eqb_0 in H0. rewrite H0. cbn [orb].
    destruct (length [] =? length (nonblank_lines newNames)); reflexivity. }
  destruct (length (nonblank_lines newNames) =? 0) eqn:H1.
  { apply length_eqb_0 in H1. rewrite H1, zip_lines_nil_r. cbn [orb].
    destruct (length (nonblank_lines oldNames) =? length []); reflexivity. }
  destruct (length (nonblank_lines oldNames)
            =? length (nonblank_lines newNames)) eqn:H2; [| reflexivity].
  cbn [orb negb]. apply Nat.eqb_eq in H2.
  rewrite pair_lines_zip by (cbn; lia). reflexivity.
Qed.

Lemma zip_lines_In (oldLines newLines : list jsstring) (m : Mapping) :
  In m (MappingTab.zip_lines oldLines newLines) ->
  exists o n, In o oldLines /\ In n newLines /\
              m = {| old := trim o; new := trim n |}.
Proof.
  unfold MappingTab.zip_lines. intros H.
  apply in_map_iff in H as ([o n] & <- & Hin).
  exists o, n. split; [now apply in_combine_l in Hin |].
  split; [now apply in_combine_r in Hin | reflexivity].
Qed.

Lemma zip_lines_trimmed (oldLines newLines : list jsstring) :
  MappingTab.zip_lines oldLines newLines
    = map (fun p => {| old := fst p; new := snd p |})
          (combine (map trim oldLines) (map trim newLines)).
Proof.
  unfold MappingTab.zip_lines. revert newLines.
  induction oldLines as [| o ol IH]; intros [| n nl]; cbn; try reflexivity.
  now rewrite IH.
Qed.

Lemma zip_lines_app (a1 a2 b1 b2 : list jsstring) :
  length a1 = length b1 ->
  MappingTab.zip_lines (a1 ++ a2) (b1 ++ b2)
    = MappingTab.zip_lines a1 b1 ++ MappingTab.zip_lines a2 b2.
Proof.
  unfold MappingTab.zip_lines. revert b1.
  induction a1 as [| x a1 IH]; intros [| y b1] H; try discriminate H.
  - reflexivity.
  - cbn. rewrite IH; [reflexivity | now injection H].
Qed.

Lemma zip_lines_firstn (k : nat) (oldLines newLines : list jsstring) :
  firstn k (MappingTab.zip_lines oldLines newLines)
    = MappingTab.zip_lines (firstn k oldLines) newLines.
Proof.
  unfold MappingTab.zip_lines. revert oldLines newLines.
  induction k as [| k IH]; intros [| o ol] [| n nl]; cbn; try reflexivity.
  now rewrite IH.
Qed.

Lemma zip_lines_length (oldLines newLines : list jsstring) :
  length (MappingTab.zip_lines oldLines newLines)
    = Nat.min (length oldLines) (length newLines).
Proof. unfold MappingTab.zip_lines. now rewrite length_map, length_combine. Qed.

(* ================================================================== *)
(** ** The mapping list: what it holds and what it ignores *)
(* ================================================================== *)

(** X1.  Every entry of the mapping list has a non-empty old name and a
    non-empty new name, both without whitespace at either end (trimming
    them again changes nothing) and without a line feed inside. *)
Theorem mappings_entries_clean (oldNames newNames : jsstring)
        (ms : list Mapping) (m : Mapping) :
  mappings oldNames newNames = Some ms -> In m ms ->
  old m <> [] /\ new m <> [] /\
  trim (old m) = old m /\ trim (new m) = new m /\
  ~ In 10%N (old m) /\ ~ In 10%N (new m).
Proof.
  rewrite mappings_zip. intros [= <-] Hin.
  destruct (length (nonblank_lines oldNames)
            =? length (nonblank_lines newNames)); [| destruct Hin].
  apply zip_lines_In in Hin as (o & n & Ho & Hn & ->). cbn [old new].
  destruct (nonblank_line_clean oldNames o Ho) as (O1 & O2 & O3).
  destruct (nonblank_line_clean newNames n Hn) as (N1 & N2 & N3).
  now repeat split.
Qed.

Lemma mappings_entries_clean_witness :
  old {| old := lit "[AS] Episode 2.mkv"; new := lit "Show.S01E002.mkv" |} <> [] /\
  new {| old := lit "[AS] Episode 2.mkv"; new := lit "Show.S01E002.mkv" |} <> [] /\
  trim (old {| old := lit "[AS] Episode 2.mkv"; new := lit "Show.S01E002.mkv" |})
    = old {| old := lit "[AS] Episode 2.mkv"; new := lit "Show.S01E002.mkv" |} /\
  trim (new {| old := lit "[AS] Episode 2.mkv"; new := lit "Show.S01E002.mkv" |})
    = new {| old := lit "[AS] Episode 2.mkv"; new := lit "Show.S01E002.mkv" |} /\
  ~ In 10%N (old {| old := lit "[AS] Episode 2.mkv"; new := lit "Show.S01E002.mkv" |}) /\
  ~ In 10%N (new {| old := lit "[AS] Episode 2.mkv"; new := lit "Show.S01E002.mkv" |}).
Proof.
  apply (mappings_entries_clean Examples.old_text Examples.new_text
           [ {| old := lit "[AS] Episode 1.mkv"; new := lit "Show.S01E001.mkv" |};
             {| old := lit "[AS] Episode 2.mkv"; new := lit "Show.S01E002.mkv" |} ]).
  - reflexivity.
  - right; left; reflexivity.
Defined.

(** X2.  The mapping list depends on the two texts only through their
    non-blank lines after trimming: blank lines, and whitespace around a
    name, in either text area do not change it. *)
Theorem mappings_reads_trimmed_lines (oldNames newNames oldNames' newNames' : jsstring) :
  map trim (nonblank_lines oldNames) = map trim (nonblank_lines oldNames') ->
  map trim (nonblank_lines newNames) = map trim (nonblank_lines newNames') ->
  mappings oldNames newNames = mappings oldNames' newNames'.
Proof.
  intros Ho Hn. rewrite !mappings_zip, !zip_lines_trimmed.
  rewrite <- (length_map trim (nonblank_lines oldNames)).
  rewrite <- (length_map trim (nonblank_lines newNames)).
  rewrite <- (length_map trim (nonblank_lines oldNames')).
  rewrite <- (length_map trim (nonblank_lines newNames')).
  now rewrite Ho, Hn.
Qed.

Lemma mappings_reads_trimmed_lines_witness :
  mappings Examples.old_text Examples.new_text
    = mappings Cases.old_text_tidy Examples.new_text.
Proof.
  apply (mappings_reads_trimmed_lines Examples.old_text Examples.new_text
                                      Cases.old_text_tidy Examples.new_text);
    reflexivity.
Defined.

(** X3.  Two blocks of names whose old and new sides agree in their number
    of non-blank lines, pasted one under the other in both text areas,
    give the mappings of the first block followed by those of the
    second. *)
Theorem mappings_of_pasted_blocks (o1 n1 o2 n2 : jsstring) :
  length (nonblank_lines o1) = length (nonblank_lines n1) ->
  length (nonblank_lines o2) = length (nonblank_lines n2) ->
  exists ms1 ms2,
    mappings o1 n1 = Some ms1 /\ mappings o2 n2 = Some ms2 /\
    mappings (o1 ++ 10%N :: o2) (n1 ++ 10%N :: n2) = Some (ms1 ++ ms2).
Proof.
  intros H1 H2. rewrite !mappings_zip, !nonblank_lines_app, !length_app.
  rewrite H1, H2, !Nat.eqb_refl.
  eexists; eexists. split; [reflexivity |]. split; [reflexivity |].
  now rewrite zip_lines_app.
Qed.

Lemma mappings_of_pasted_blocks_witness :
  exists ms1 ms2,
    mappings Examples.old_text Examples.new_text = Some ms1 /\
    mappings Cases.old_text_more Cases.new_text_more = Some ms2 /\
    mappings (Examples.old_text ++ 10%N :: Cases.old_text_more)
             (Examples.new_text ++ 10%N :: Cases.new_text_more)
      = Some (ms1 ++ ms2).
Proof.
  apply (mappings_of_pasted_blocks Examples.old_text Examples.new_text
                                   Cases.old_text_more Cases.new_text_more);
    reflexivity.
Defined.

(* ================================================================== *)
(** ** The mapping tab against the mapping list *)
(* ================================================================== *)

Lemma mismatch_spec (oldNames newNames : jsstring) :
  MappingTab.mismatch oldNames newNames
    = negb (length (nonblank_lines oldNames)
            =? length (nonblank_lines newNames)).
Proof.
  unfold MappingTab.mismatch.
  destruct (length (nonblank_lines oldNames)) as [| a];
    destruct (length (nonblank_lines newNames)) as [| b]; cbn;
    try reflexivity.
  now rewrite andb_true_r.
Qed.

(** X4.  The green banner of the mapping tab and the mapping list agree:
    the banner is shown exactly when the list is non-empty, and the count
    it prints is the length of the list. *)
Theorem MappingTab_banner_counts_mappings (oldNames newNames : jsstring) :
  exists ms,
    mappings oldNames newNames = Some ms /\
    MappingTab.shows_ready oldNames newNames = (0 <? length ms) /\
    length ms = if MappingTab.shows_ready oldNames newNames
                then MappingTab.count oldNames newNames
                else 0.
Proof.
  rewrite mappings_zip. eexists. split; [reflexivity |].
  unfold MappingTab.shows_ready, MappingTab.count. rewrite mismatch_spec.
  destruct (length (nonblank_lines oldNames)
            =? length (nonblank_lines newNames)) eqn:E; cbn [negb andb length].
  - rewrite zip_lines_length. split; [reflexivity |].
    destruct (Nat.min (length (nonblank_lines oldNames))
                      (length (nonblank_lines newNames))); reflexivity.
  - split; reflexivity.
Qed.

(** X5.  The red banner is shown exactly when the two numbers of non-blank
    lines differ (the test on a positive number adds nothing), and a form
    that shows it cannot start a job: the mapping list is empty, the start
    button is disabled and [handleStart] returns at once. *)
Theorem MappingTab_mismatch_blocks_start (a : App) :
  MappingTab.shows_mismatch (oldNames a) (newNames a)
    = negb (length (nonblank_lines (oldNames a))
            =? length (nonblank_lines (newNames a))) /\
  (MappingTab.shows_mismatch (oldNames a) (newNames a) = true ->
   mappingsOf a = [] /\ RunTab_start_disabled a = true /\
   handleStart a = (a, [])).
Proof.
  unfold MappingTab.shows_mismatch. split; [apply mismatch_spec |].
  rewrite mismatch_spec. intros H. apply negb_true_iff in H.
  assert (Hms : mappingsOf a = []).
  { unfold mappingsOf. now rewrite mappings_zip, H. }
  split; [exact Hms |]. split.
  - unfold RunTab_start_disabled. rewrite Hms. cbn. apply orb_true_r.
  - apply handleStart_rejected. now right.
Qed.

Lemma MappingTab_mismatch_blocks_start_witness :
  mappingsOf Cases.app_mismatch = [] /\
  RunTab_start_disabled Cases.app_mismatch = true /\
  handleStart Cases.app_mismatch = (Cases.app_mismatch, []).
Proof.
  apply (proj2 (MappingTab_mismatch_blocks_start Cases.app_mismatch)).
  reflexivity.
Defined.

Lemma map_index_length {A B : Type} (f : nat -> A -> B) (l : list A) :
  forall i, length (Builtins.map_index f i l) = length l.
Proof. induction l as [| x l IH]; intros i; cbn; [| rewrite IH]; reflexivity. Qed.

Lemma preview_numbers (newLines l : list jsstring) :
  forall i,
  map MappingTab.number
      (Builtins.map_index
         (fun i o => {| MappingTab.number := i + 1; MappingTab.old_cell := o;
                        MappingTab.new_cell := nth_error newLines i |}) i l)
    = seq (i + 1) (length l).
Proof.
  induction l as [| x l IH]; intros i; cbn; [reflexivity |].
  now rewrite IH.
Qed.

Lemma preview_rows_zip (newLines l : list jsstring) :
  forall i, i + length l <= length newLines ->
  map MappingTab.row_mapping
      (Builtins.map_index
         (fun i o => {| MappingTab.number := i + 1; MappingTab.old_cell := o;
                        MappingTab.new_cell := nth_error newLines i |}) i l)
    = map Some (MappingTab.zip_lines l (skipn i newLines)).
Proof.
  induction l as [| o l IH]; intros i Hlen; [reflexivity |].
  cbn [length] in Hlen. cbn [Builtins.map_index map].
  destruct (nth_error newLines i) as [n |] eqn:Hn.
  - rewrite IH by lia. rewrite (skipn_nth_error newLines i n Hn).
    reflexivity.
  - apply nth_error_None in Hn. lia.
Qed.

(** X6.  When the preview is shown, its rows are the first five mappings
    before trimming, in order and numbered from 1, and the rows together
    with the number printed in "+ n more mappings..." make up the whole
    mapping list. *)
Theorem MappingTab_preview_rows (oldNames newNames : jsstring) :
  MappingTab.shows_preview oldNames newNames = true ->
  exists ms,
    mappings oldNames newNames = Some ms /\
    map MappingTab.row_mapping (MappingTab.preview oldNames newNames)
      = map Some (firstn 5 ms) /\
    map MappingTab.number (MappingTab.preview oldNames newNames)
      = seq 1 (length (MappingTab.preview oldNames newNames)) /\
    length (MappingTab.preview oldNames newNames)
    + match MappingTab.more oldNames newNames with
      | Some k => k
      | None => 0
      end
    = length ms.
Proof.
  unfold MappingTab.shows_preview, MappingTab.more, MappingTab.count,
    MappingTab.preview.
  rewrite mismatch_spec, mappings_zip. intros H.
  apply andb_true_iff in H as [Hc He].
  apply negb_true_iff, negb_false_iff in He. rewrite He.
  apply Nat.eqb_eq in He.
  eexists. split; [reflexivity |]. split; [| split].
  - rewrite zip_lines_firstn.
    apply (preview_rows_zip (nonblank_lines newNames)
                            (firstn 5 (nonblank_lines oldNames)) 0).
    rewrite length_firstn. lia.
  - rewrite map_index_length.
    apply (preview_numbers (nonblank_lines newNames)
                           (firstn 5 (nonblank_lines oldNames)) 0).
  - rewrite map_index_length, length_firstn, zip_lines_length, <- He.
    rewrite Nat.min_id.
    destruct (5 <? length (nonblank_lines oldNames)) eqn:E5.
    + apply Nat.ltb_lt in E5. lia.
    + apply Nat.ltb_ge in E5. lia.
Qed.

Lemma MappingTab_preview_rows_witness :
  exists ms,
    mappings Cases.seven_old Cases.seven_new = Some ms /\
    map MappingTab.row_mapping (MappingTab.preview Cases.seven_old Cases.seven_new)
      = map Some (firstn 5 ms) /\
    map MappingTab.number (MappingTab.preview Cases.seven_old Cases.seven_new)
      = seq 1 (length (MappingTab.preview Cases.seven_old Cases.seven_new)) /\
    length (MappingTab.preview Cases.seven_old Cases.seven_new)
    + match MappingTab.more Cases.seven_old Cases.seven_new with
      | Some k => k
      | None => 0
      end
    = length ms.
Proof.
  apply (MappingTab_preview_rows Cases.seven_old Cases.seven_new).
  reflexivity.
Defined.

(* ================================================================== *)
(** ** The job state as a function of the events *)
(* ================================================================== *)

Lemma run_events_cons (j : JobState) (e : JobEvent) (es : list JobEvent) :
  run_events j (e :: es) = run_events (step j e) es.
Proof. reflexivity. Qed.

Lemma step_logs (j : JobState) (e : JobEvent) :
  logs (step j e) = logs j ++ Stream.log_lines e.
Proof. case_event e; cbn; now rewrite ?app_nil_r. Qed.

(** X7.  The log of a job is the log it had followed by the messages of
    the log events and the "Failed to start" lines of the failed start
    requests, each in its place of arrival: no line is dropped, doubled or
    reordered, and status messages and socket errors add none. *)
Theorem logs_follow_arrival_order (j : JobState) (es : list JobEvent) :
  logs (run_events j es) = logs j ++ flat_map Stream.log_lines es.
Proof.
  revert j. induction es as [| e es IH]; intros j.
  - cbn. now rewrite app_nil_r.
  - rewrite run_events_cons, IH, step_logs. cbn [flat_map].
    now rewrite app_assoc.
Qed.

Lemma last_status_snoc (es : list JobEvent) (e : JobEvent) :
  Stream.last_status (es ++ [e])
    = match e with
      | ev_message (ws_status d) => Some d
      | _ => Stream.last_status es
      end.
Proof. unfold Stream.last_status. now rewrite fold_left_app. Qed.

(** X8.  The progress, the total and the OTP flag shown are those of the
    last status message received, whatever came before and whatever other
    events came after it; without any status message they are those the
    job had. *)
Theorem latest_status_wins (j : JobState) (es : list JobEvent) :
  progress (run_events j es)
    = match Stream.last_status es with
      | Some d => d_progress d
      | None => progress j
      end /\
  total (run_events j es)
    = match Stream.last_status es with
      | Some d => d_total d
      | None => total j
      end /\
  needsOtp (run_events j es)
    = match Stream.last_status es with
      | Some d => d_needs_otp d
      | None => needsOtp j
      end.
Proof.
  induction es as [| e es (Hp & Ht & Ho)] using rev_ind; [now repeat split |].
  rewrite run_events_snoc, last_status_snoc.
  case_event e; cbn; now repeat split.
Qed.

Lemma last_session_snoc (es : list JobEvent) (e : JobEvent) :
  Stream.last_session (es ++ [e])
    = match e with
      | ev_message (ws_status d) =>
          match d_session_string d with
          | Some s => Some s
          | None => Stream.last_session es
          end
      | _ => Stream.last_session es
      end.
Proof. unfold Stream.last_session. now rewrite fold_left_app. Qed.

(** X9.  The session string a job holds is the last non-null one a status
    message carried; when none carried one, it is the one the job had. *)
Theorem session_string_is_last_received (j : JobState) (es : list JobEvent) :
  Job.sessionString (run_events j es)
    = match Stream.last_session es with
      | Some s => Some s
      | None => Job.sessionString j
      end.
Proof.
  induction es as [| e es IH] using rev_ind; [reflexivity |].
  rewrite run_events_snoc, last_session_snoc.
  case_event e; cbn; try exact IH.
  destruct (d_session_string d); [reflexivity | exact IH].
Qed.

Lemma step_jobId (j : JobState) (e : JobEvent) :
  Stream.is_resp_ok e = false -> jobId (step j e) = jobId j.
Proof. case_event e; cbn; intros H; try reflexivity; discriminate H. Qed.

Lemma run_jobId (es : list JobEvent) :
  forall j,
  forallb (fun e => negb (Stream.is_resp_ok e)) es = true ->
  jobId (run_events j es) = jobId j.
Proof.
  induction es as [| e es IH]; intros j H; [reflexivity |].
  cbn in H. apply andb_true_iff in H as [He Hes].
  rewrite run_events_cons, IH by exact Hes.
  apply step_jobId. now apply negb_true_iff.
Qed.

(** X10.  The code typed in is sent with the job identifier the start
    request returned, whatever events came before and after it; and as
    long as no answer with an identifier has arrived (the state of a new
    job), submitting sends nothing. *)
Theorem otp_goes_to_the_started_job (resolves : bool) (a : App)
        (es1 es2 : list JobEvent) (id : jsstring) :
  (jobId (job a) = None ->
   forallb (fun e => negb (Stream.is_resp_ok e)) es1 = true ->
   handleSubmitOtp resolves (Stream.receive a es1)
     = (Stream.receive a es1, [])) /\
  (forallb (fun e => negb (Stream.is_resp_ok e)) es2 = true ->
   id <> [] -> otp a <> [] ->
   snd (handleSubmitOtp resolves
          (Stream.receive a (es1 ++ ev_start_response (resp_ok id) :: es2)))
     = [fetch_submit_otp id (otp a)]).
Proof.
  unfold handleSubmitOtp, Stream.receive. cbn [job setJob otp]. split.
  - intros Hj Hes. now rewrite run_jobId, Hj.
  - intros Hes Hid Hotp.
    rewrite run_events_app, run_events_cons, run_jobId by exact Hes.
    cbn [step handleStart_resume fst jobId].
    apply truthy_true_iff in Hid, Hotp. now rewrite Hid, Hotp.
Qed.

Lemma otp_goes_to_the_started_job_witness :
  handleSubmitOtp true (Stream.receive Examples.app_ready Cases.quiet_events)
    = (Stream.receive Examples.app_ready Cases.quiet_events, []) /\
  snd (handleSubmitOtp true
         (Stream.receive Examples.app_code_typed
            (Cases.quiet_events
             ++ ev_start_response (resp_ok (lit "job-2")) :: Cases.quiet_events)))
    = [fetch_submit_otp (lit "job-2") (lit "12345")].
Proof.
  split.
  - apply (proj1 (otp_goes_to_the_started_job true Examples.app_ready
                    Cases.quiet_events [] [])); reflexivity.
  - apply (proj2 (otp_goes_to_the_started_job true Examples.app_code_typed
                    Cases.quiet_events Cases.quiet_events (lit "job-2")));
      [reflexivity | |]; vm_compute; discriminate.
Defined.

(** X11.  A code is not sent twice: once a submission has resolved, the
    input is empty and a second submission sends nothing. *)
Theorem otp_is_not_sent_twice (resolves : bool) (a : App) :
  snd (handleSubmitOtp resolves (fst (handleSubmitOtp true a))) = [].
Proof.
  unfold handleSubmitOtp.
  destruct (jobId (job a)) as [id |] eqn:Hj; cbn [fst]; [| now rewrite Hj].
  destruct (negb (truthy id) || negb (truthy (otp a))) eqn:G; cbn [fst].
  - now rewrite Hj, G.
  - cbn [job setOtp]. rewrite Hj. cbn. now rewrite orb_true_r.
Qed.

Lemma run_status (es : list JobEvent) :
  forall j,
  forallb Stream.keeps_status es = true ->
  status (run_events j es) = status j.
Proof.
  induction es as [| e es IH]; intros j H; [reflexivity |].
  cbn in H. apply andb_true_iff in H as [He Hes].
  rewrite run_events_cons, IH by exact Hes.
  case_event e; cbn in *; try reflexivity; discriminate He.
Qed.

Lemma failure_status (j : JobState) (e : JobEvent) :
  Stream.is_failure e = true -> status (step j e) = JobStatus.error.
Proof. case_event e; cbn; intros H; try reflexivity; discriminate H. Qed.

(** X12.  From the page, a job is not started twice: after an accepted
    start, and as long as only log lines and the job identifier have
    arrived, a click on the start button does nothing.  After a failure
    (socket error, or a start request that was refused or threw) the
    button is back, and a click sends the request of the unchanged form
    again. *)
Theorem page_starts_one_job_at_a_time (a : App) (es : list JobEvent)
        (e : JobEvent) :
  ready a = true -> mappingsOf a <> [] ->
  (forallb Stream.keeps_status es = true ->
   RunTab.clickStart (Stream.receive (fst (handleStart a)) es)
     = (Stream.receive (fst (handleStart a)) es, [])) /\
  (Stream.is_failure e = true ->
   snd (RunTab.clickStart (Stream.receive (fst (handleStart a)) (es ++ [e])))
     = [fetch_start_rename (start_body a)]).
Proof.
  intros Hr Hms. rewrite (handleStart_accepted a Hr Hms). cbn [fst].
  unfold RunTab.clickStart, RunTab_shows_start, Stream.receive.
  cbn [job setJob setActiveTab]. split.
  - intros Hes. now rewrite run_status.
  - intros He. rewrite run_events_snoc, failure_status by exact He.
    unfold RunTab_start_disabled.
    change (ready (setJob (setActiveTab (setJob a (new_job (length (mappingsOf a)))) tab_run)
                          (step (run_events (new_job (length (mappingsOf a))) es) e)))
      with (ready a).
    change (mappingsOf (setJob (setActiveTab (setJob a (new_job (length (mappingsOf a)))) tab_run)
                          (step (run_events (new_job (length (mappingsOf a))) es) e)))
      with (mappingsOf a).
    rewrite Hr. cbn [negb orb andb].
    destruct (length (mappingsOf a) =? 0) eqn:H0.
    { apply length_eqb_0 in H0. contradiction. }
    cbn [negb]. unfold handleStart.
    change (ready (setJob (setActiveTab (setJob a (new_job (length (mappingsOf a)))) tab_run)
                          (step (run_events (new_job (length (mappingsOf a))) es) e)))
      with (ready a).
    change (mappingsOf (setJob (setActiveTab (setJob a (new_job (length (mappingsOf a)))) tab_run)
                          (step (run_events (new_job (length (mappingsOf a))) es) e)))
      with (mappingsOf a).
    rewrite Hr, H0. reflexivity.
Qed.

Lemma page_starts_one_job_at_a_time_witness :
  RunTab.clickStart
    (Stream.receive (fst (handleStart Examples.app_ready)) Cases.quiet_events)
    = (Stream.receive (fst (handleStart Examples.app_ready)) Cases.quiet_events,
       []) /\
  snd (RunTab.clickStart
         (Stream.receive (fst (handleStart Examples.app_ready))
                         (Cases.quiet_events ++ [ev_ws_error])))
    = [fetch_start_rename (start_body Examples.app_ready)].
Proof.
  assert (Hr : ready Examples.app_ready = true) by reflexivity.
  assert (Hms : mappingsOf Examples.app_ready <> [])
    by (vm_compute; discriminate).
  destruct (page_starts_one_job_at_a_time Examples.app_ready
              Cases.quiet_events ev_ws_error Hr Hms) as [H1 H2].
  split; [exact (H1 eq_refl) | exact (H2 eq_refl)].
Defined.

(** X13.  A start request the server refuses always shows: the job goes
    to the error state, the error box is drawn (its text is never empty),
    a "Failed to start" line is added at the end of the log and is drawn
    in red, and the start button is back.  A request that throws does the
    same, except that the error box needs a non-empty message; a socket
    error draws the box and adds no log line. *)
Theorem failed_start_is_shown (j : JobState) (text message : jsstring) :
  (status (fst (handleStart_resume (resp_not_ok text) j)) = JobStatus.error /\
   RunTab.shows_error (fst (handleStart_resume (resp_not_ok text) j)) = true /\
   logs (fst (handleStart_resume (resp_not_ok text) j))
     = logs j ++ [failed_to_start ++ server_error ++ text] /\
   RunTab.log_class (failed_to_start ++ server_error ++ text)
     = RunTab.text_red_400 /\
   RunTab_shows_start (fst (handleStart_resume (resp_not_ok text) j)) = true) /\
  (RunTab.shows_error (fst (handleStart_resume (resp_threw message) j))
     = truthy message /\
   logs (fst (handleStart_resume (resp_threw message) j))
     = logs j ++ [failed_to_start ++ message] /\
   RunTab.log_class (failed_to_start ++ message) = RunTab.text_red_400 /\
   RunTab_shows_start (fst (handleStart_resume (resp_threw message) j)) = true) /\
  (RunTab.shows_error (onerror j) = true /\ logs (onerror j) = logs j /\
   RunTab_shows_start (onerror j) = true).
Proof. repeat split. Qed.

(* ================================================================== *)
(** ** Copying the log, the socket address and the tabs *)
(* ================================================================== *)

Lemma split_join_lf (ls : list jsstring) :
  ls <> [] -> (forall l, In l ls -> ~ In 10%N l) ->
  split_lf (join_lf ls) = ls.
Proof.
  induction ls as [| l rest IH]; intros Hne Hlf; [contradiction |].
  destruct rest as [| l' rest].
  - cbn. apply split_lf_line. apply Hlf. now left.
  - rewrite join_lf_cons, split_lf_app, IH.
    + rewrite split_lf_line; [reflexivity | apply Hlf; now left].
    + discriminate.
    + intros x Hx. apply Hlf. now right.
Qed.

(** X14.  The text "Copy Logs" puts on the clipboard has one line per log
    entry: as long as no entry holds a line feed, splitting the text at
    the line feeds gives the log back, entry by entry.  With an empty log
    the button is not drawn. *)
Theorem copied_logs_round_trip (j : JobState) :
  (logs j = [] -> RunTab.copied_logs j = None) /\
  (logs j <> [] -> (forall l, In l (logs j) -> ~ In 10%N l) ->
   exists text, RunTab.copied_logs j = Some text /\ split_lf text = logs j).
Proof.
  unfold RunTab.copied_logs. split.
  - now intros ->.
  - intros Hne Hlf. destruct (logs j) as [| l rest] eqn:E; [contradiction |].
    cbn [length Nat.ltb Nat.leb]. eexists. split; [reflexivity |].
    now apply split_join_lf.
Qed.

Lemma copied_logs_round_trip_witness :
  RunTab.copied_logs Examples.idle_job = None /\
  exists text,
    RunTab.copied_logs (run_events Examples.started_job Examples.run_trace)
      = Some text /\
    split_lf text = logs (run_events Examples.started_job Examples.run_trace).
Proof.
  split.
  - apply (proj1 (copied_logs_round_trip Examples.idle_job)). reflexivity.
  - apply (proj2 (copied_logs_round_trip
                    (run_events Examples.started_job Examples.run_trace))).
    + vm_compute. discriminate.
    + intros l Hl H10. vm_compute in Hl.
      destruct Hl as [<- | [<- | [<- | []]]]; vm_compute in H10;
        repeat (destruct H10 as [H10 | H10]; [discriminate H10 |]);
        exact H10.
Defined.

Lemma startsWith_prefix (p r : jsstring) :
  Builtins.startsWith (p ++ r) p = true.
Proof.
  induction p as [| x p IH]; cbn; [now destruct r |].
  now rewrite N.eqb_refl.
Qed.

(** X15.  The socket address keeps everything of the server address but
    the scheme: "http" at the very start becomes "ws" (so "https://host"
    gives "wss://host"), an address that does not start with "http" is
    used as it is, and in both cases the address ends in "/ws/" and the
    job identifier. *)
Theorem wsUrl_maps_the_scheme (rest API jobId : jsstring) :
  Ws.wsUrl (lit "http" ++ rest) jobId = lit "ws" ++ rest ++ lit "/ws/" ++ jobId /\
  Ws.wsUrl (lit "https://" ++ rest) jobId
    = lit "wss://" ++ rest ++ lit "/ws/" ++ jobId /\
  (Builtins.startsWith API (lit "http") = false ->
   Ws.wsUrl API jobId = API ++ lit "/ws/" ++ jobId).
Proof.
  assert (H : forall r, Ws.wsUrl (lit "http" ++ r) jobId
                        = lit "ws" ++ r ++ lit "/ws/" ++ jobId).
  { intros r. unfold Ws.wsUrl, Builtins.replace_http_ws.
    rewrite startsWith_prefix. cbn [lit list_ascii_of_string map length app skipn].
    reflexivity. }
  split; [apply H |]. split; [apply (H (lit "s://" ++ rest)) |].
  unfold Ws.wsUrl, Builtins.replace_http_ws. intros ->. reflexivity.
Qed.

Lemma wsUrl_maps_the_scheme_witness :
  Ws.wsUrl (lit "ws://localhost:8000") (lit "job-1")
    = lit "ws://localhost:8000" ++ lit "/ws/" ++ lit "job-1".
Proof.
  apply (proj2 (proj2 (wsUrl_maps_the_scheme [] (lit "ws://localhost:8000")
                                             (lit "job-1")))).
  reflexivity.
Defined.

Lemma setActiveTab_back (a : App) (t : Tab) :
  setActiveTab (setActiveTab a t) (activeTab a) = a.
Proof. now destruct a. Qed.

(** X16.  Back and Next never fail and change nothing but the active tab.
    Each is disabled exactly where it would do nothing (Back on the first
    tab, Next on the last); everywhere else it moves by one tab, and the
    other button brings the page back to where it was. *)
Theorem tab_buttons_round_trip (a : App) :
  (Nav.back_disabled a = true -> Nav.back a = Some a) /\
  (Nav.next_disabled a = true -> Nav.next a = Some a) /\
  (Nav.back_disabled a = false ->
   exists t, t <> activeTab a /\ Nav.back a = Some (setActiveTab a t) /\
             Nav.next (setActiveTab a t) = Some a) /\
  (Nav.next_disabled a = false ->
   exists t, t <> activeTab a /\ Nav.next a = Some (setActiveTab a t) /\
             Nav.back (setActiveTab a t) = Some a).
Proof.
  unfold Nav.back_disabled, Nav.next_disabled, Nav.back, Nav.next.
  destruct a as [tab ? ? ? ? ? ? ? ? ? ? ?]. cbn [activeTab].
  repeat split; destruct tab; cbn; intros H;
    try discriminate H; try reflexivity;
    eexists; (split; [| split; reflexivity]); discriminate.
Qed.

Lemma tab_buttons_round_trip_witness :
  Nav.back (setActiveTab Examples.app_ready tab_setup)
    = Some (setActiveTab Examples.app_ready tab_setup) /\
  Nav.next (setActiveTab Examples.app_ready tab_guide)
    = Some (setActiveTab Examples.app_ready tab_guide) /\
  (exists t, t <> activeTab Examples.app_ready /\
             Nav.back Examples.app_ready = Some (setActiveTab Examples.app_ready t) /\
             Nav.next (setActiveTab Examples.app_ready t) = Some Examples.app_ready) /\
  (exists t, t <> activeTab Examples.app_ready /\
             Nav.next Examples.app_ready = Some (setActiveTab Examples.app_ready t) /\
             Nav.back (setActiveTab Examples.app_ready t) = Some Examples.app_ready).
Proof.
  split; [| split; [| split]].
  - apply (proj1 (tab_buttons_round_trip
                    (setActiveTab Examples.app_ready tab_setup))).
    reflexivity.
  - apply (proj1 (proj2 (tab_buttons_round_trip
                           (setActiveTab Examples.app_ready tab_guide)))).
    reflexivity.
  - apply (proj1 (proj2 (proj2 (tab_buttons_round_trip Examples.app_ready)))).
    reflexivity.
  - apply (proj2 (proj2 (proj2 (tab_buttons_round_trip Examples.app_ready)))).
    reflexivity.
Defined.

(* ================================================================== *)
(** ** The session-string client: names, polling and the page *)
(* ================================================================== *)






(** X18.  Polling replaces what the page shows of the task: after a
    status answer, the running flag, the logs, the progress, the total and
    the current file are those of this answer alone (missing ones reset to
    the empty log, 0 and the empty name), so that earlier answers leave no
    trace and the same answer twice is as good as once.  The form is never
    touched, a failed request changes nothing, and outside the run tab
    nothing is polled. *)
Theorem polling_replaces_the_status (d d' : SessionPage.StatusBody)
        (a : SessionClient.App) :
  SessionPage.fetchStatus (Some d) (SessionPage.fetchStatus (Some d') a)
    = SessionPage.fetchStatus (Some d) a /\
  SessionClient.isRunning (SessionPage.fetchStatus (Some d) a)
    = SessionPage.is_running d /\
  SessionClient.logs (SessionPage.fetchStatus (Some d) a)
    = nullish (SessionPage.r_logs d) [] /\
  SessionClient.progress (SessionPage.fetchStatus (Some d) a)
    = nullish (SessionPage.r_progress d) 0%Z /\
  SessionClient.totalFiles (SessionPage.fetchStatus (Some d) a)
    = nullish (SessionPage.r_total d) 0%Z /\
  SessionClient.currentFile (SessionPage.fetchStatus (Some d) a)
    = nullish (SessionPage.r_current_file d) [] /\
  (SessionClient.apiId (SessionPage.fetchStatus (Some d) a),
   SessionClient.apiHash (SessionPage.fetchStatus (Some d) a),
   SessionClient.sessionString (SessionPage.fetchStatus (Some d) a),
   SessionClient.sourceChatId (SessionPage.fetchStatus (Some d) a),
   SessionClient.destChatId (SessionPage.fetchStatus (Some d) a),
   SessionClient.newFilenames (SessionPage.fetchStatus (Some d) a),
   SessionClient.activeTab (SessionPage.fetchStatus (Some d) a))
    = (SessionClient.apiId a, SessionClient.apiHash a,
       SessionClient.sessionString a, SessionClient.sourceChatId a,
       SessionClient.destChatId a, SessionClient.newFilenames a,
       SessionClient.activeTab a) /\
  SessionPage.fetchStatus None a = a /\
  (SessionClient.activeTab a = SessionClient.tab_run ->
   SessionPage.poll (Some d) a = SessionPage.fetchStatus (Some d) a) /\
  (SessionClient.activeTab a <> SessionClient.tab_run ->
   SessionPage.poll (Some d) a = a).
Proof.
  do 8 (split; [reflexivity |]). unfold SessionPage.poll. split.
  - now intros ->.
  - destruct (SessionClient.activeTab a); congruence.
Qed.

Lemma polling_replaces_the_status_witness :
  SessionPage.poll (Some Cases.status_polled) Wording.session_app_polling
    = SessionClient.mkApp (lit "1") (lit "h") (lit "s") (lit "-1") (lit "-2")
                          (lit "a.mkv") false [lit "done"] 1 1 []
                          SessionClient.tab_run /\
  SessionPage.poll (Some Cases.status_polled) Wording.session_app_on_files
    = Wording.session_app_on_files.
Proof.
  split.
  - rewrite (proj1 (proj2 (proj2 (proj2 (proj2 (proj2 (proj2 (proj2 (proj2
               (polling_replaces_the_status Cases.status_polled
                  Cases.status_polled Wording.session_app_polling)))))))))
              eq_refl).
    reflexivity.
  - apply (proj2 (proj2 (proj2 (proj2 (proj2 (proj2 (proj2 (proj2 (proj2
             (polling_replaces_the_status Cases.status_polled
                Cases.status_polled Wording.session_app_on_files)))))))))).
    discriminate.
Defined.

(** X19.  In the session-string client a task is not started twice from
    the page: once a start request has gone through, the page is on the
    run tab with Stop in the place of Start, and a click on Start does
    nothing, until a status answer reports that the task no longer runs;
    then Start sends the request again. *)
Theorem session_page_starts_once (a : SessionClient.App)
        (failure : option jsstring) (d : SessionPage.StatusBody) :
  SessionClient.namesList a <> [] -> SessionClient.apiId a <> [] ->
  SessionClient.apiHash a <> [] -> SessionClient.sessionString a <> [] ->
  SessionClient.sourceChatId a <> [] -> SessionClient.destChatId a <> [] ->
  SessionClient.activeTab (fst (SessionClient.startTask None a))
    = SessionClient.tab_run /\
  SessionPage.clickStart failure (fst (SessionClient.startTask None a))
    = (fst (SessionClient.startTask None a), []) /\
  (SessionPage.is_running d = false ->
   existsb SessionClient.is_post
     (snd (SessionPage.clickStart failure
             (SessionPage.poll (Some d) (fst (SessionClient.startTask None a)))))
     = true).
Proof.
  intros Hn H1 H2 H3 H4 H5.
  assert (E : fst (SessionClient.startTask None a)
              = SessionClient.mkApp (SessionClient.apiId a)
                  (SessionClient.apiHash a) (SessionClient.sessionString a)
                  (SessionClient.sourceChatId a) (SessionClient.destChatId a)
                  (SessionClient.newFilenames a) true (SessionClient.logs a)
                  (SessionClient.progress a) (SessionClient.totalFiles a)
                  (SessionClient.currentFile a) SessionClient.tab_run).
  { unfold SessionClient.startTask.
    destruct (length (SessionClient.namesList a) =? 0) eqn:H0.
    { apply length_eqb_0 in H0. contradiction. }
    apply truthy_true_iff in H1, H2, H3, H4, H5.
    now rewrite H1, H2, H3, H4, H5. }
  rewrite E. split; [reflexivity |]. split; [reflexivity |].
  intros Hd. unfold SessionPage.clickStart, SessionPage.poll.
  cbn [SessionClient.activeTab SessionPage.fetchStatus SessionClient.isRunning].
  rewrite Hd. cbn [negb].
  apply startTask_accepted; assumption.
Qed.

Lemma session_page_starts_once_witness :
  SessionClient.activeTab
    (fst (SessionClient.startTask None Examples.session_app_filled))
    = SessionClient.tab_run /\
  SessionPage.clickStart None
    (fst (SessionClient.startTask None Examples.session_app_filled))
    = (fst (SessionClient.startTask None Examples.session_app_filled), []) /\
  existsb SessionClient.is_post
    (snd (SessionPage.clickStart None
            (SessionPage.poll (Some Cases.status_polled)
               (fst (SessionClient.startTask None Examples.session_app_filled)))))
    = true.
Proof.
  destruct (session_page_starts_once Examples.session_app_filled None
              Cases.status_polled) as (H1 & H2 & H3);
    try (vm_compute; discriminate).
  split; [exact H1 |]. split; [exact H2 |]. exact (H3 eq_refl).
Defined.

(* ================================================================== *)
(** ** The progress bar on file counts *)
(* ================================================================== *)

Lemma bar_checked_all :
  forallb Bar.checked (seq 1 Bar.largest_total) = true.
Proof. vm_cast_no_check (@eq_refl bool true). Qed.

Lemma scan_spec (m : nat) (ps : list (option Z)) :
  forall v prev, Bar.scan m v prev ps = true ->
  forall k, k < length ps ->
  exists p, nth_error ps k = Some (Some p) /\
            Bar.in_range m (v + k) p = true /\
            (S k < length ps ->
             exists q, nth_error ps (S k) = Some (Some q) /\ (p <= q)%Z).
Proof.
  induction ps as [| [p |] rest IH]; intros v prev H k Hk; cbn in *;
    [lia | | discriminate H].
  apply andb_true_iff in H as [H Hrest]. apply andb_true_iff in H as [Hr _].
  destruct k as [| k].
  - exists p. rewrite Nat.add_0_r. split; [reflexivity |].
    split; [exact Hr |]. intros Hlen.
    destruct rest as [| [q |] rest']; cbn in *; [lia | | discriminate Hrest].
    exists q. split; [reflexivity |].
    apply andb_true_iff in Hrest as [Hq _].
    apply andb_true_iff in Hq as [_ Hq]. now apply Z.leb_le.
  - destruct (IH (S v) p Hrest k) as (p' & Hn & Hr' & Hnext); [lia |].
    exists p'. split; [exact Hn |]. rewrite <- Nat.add_succ_comm.
    split; [exact Hr' |]. intros Hlen. apply Hnext. lia.
Qed.

Lemma percentages_nth (m v : nat) :
  v <= m ->
  nth_error (Bar.percentages m) v
    = Some (Bar.shown (pct (Bar.of_count v) (Bar.of_count m))
                      (pct_exact (Z.of_nat v) (Z.of_nat m))).
Proof.
  intros Hv. unfold Bar.percentages.
  rewrite nth_error_map, nth_error_seq.
  destruct (Nat.ltb_spec v (S m)); [reflexivity | lia].
Qed.

Lemma shown_spec (r : number) (exact p : Z) :
  Bar.shown r exact = Some p ->
  Bar.strict_eq r (Bar.of_int p) = true /\ (exact - 1 <= p <= exact)%Z.
Proof.
  unfold Bar.shown.
  destruct (Bar.strict_eq r (Bar.of_int exact)) eqn:E1.
  - intros [= <-]. split; [exact E1 | lia].
  - destruct (Bar.strict_eq r (Bar.of_int (exact - 1))) eqn:E2;
      [| discriminate].
    intros [= <-]. split; [exact E2 | lia].
Qed.

(** X20.  For every job of up to 300 files and every number of files done,
    the percentage drawn is (strictly equal to) a whole number from 0 to
    100 that is never above the exactly rounded percentage and at most one
    below it; it is 0 with nothing done, 100 (and the bar emerald) with
    everything done, and it never goes down when one more file is done. *)
Theorem bar_on_file_counts (m v : nat) :
  1 <= m <= Bar.largest_total -> v <= m ->
  exists p,
    Bar.strict_eq (pct (Bar.of_count v) (Bar.of_count m)) (Bar.of_int p)
      = true /\
    (0 <= p <= 100)%Z /\
    (pct_exact (Z.of_nat v) (Z.of_nat m) - 1 <= p
       <= pct_exact (Z.of_nat v) (Z.of_nat m))%Z /\
    (v = 0 -> p = 0%Z) /\
    (v = m -> p = 100%Z /\
              Bar.bar_is_emerald (Bar.of_count v) (Bar.of_count m) = true) /\
    (v < m ->
     exists q,
       Bar.strict_eq (pct (Bar.of_count (S v)) (Bar.of_count m)) (Bar.of_int q)
         = true /\
       (p <= q)%Z).
Proof.
  intros Hm Hv.
  pose proof bar_checked_all as H. rewrite forallb_forall in H.
  specialize (H m). unfold Bar.checked in H.
  rewrite andb_true_iff in H.
  destruct H as [Hscan Hem]; [apply in_seq; lia |].
  assert (Hlen : length (Bar.percentages m) = S m).
  { unfold Bar.percentages. now rewrite length_map, length_seq. }
  destruct (scan_spec m (Bar.percentages m) 0 0%Z Hscan v)
    as (p & Hn & Hr & Hnext); [lia |].
  rewrite percentages_nth in Hn by exact Hv. injection Hn as Hn.
  apply shown_spec in Hn as [Heq Hex].
  cbn [Nat.add] in Hr. unfold Bar.in_range in Hr.
  rewrite !andb_true_iff, !orb_true_iff, !negb_true_iff, !Z.leb_le,
    !Z.eqb_eq, !Nat.eqb_neq in Hr.
  destruct Hr as [[[R1 R2] R5] R6].
  exists p. split; [exact Heq |]. split; [lia |]. split; [exact Hex |].
  split; [| split].
  - intros E. destruct R5 as [R5 | R5]; [contradiction | exact R5].
  - intros E. split; [destruct R6 as [R6 | R6]; [contradiction | exact R6] |].
    now rewrite E.
  - intros Hlt. destruct Hnext as (q & Hq & Hpq); [lia |].
    rewrite percentages_nth in Hq by lia. injection Hq as Hq.
    apply shown_spec in Hq as [Hq _]. now exists q.
Qed.

Lemma bar_on_file_counts_witness :
  exists p,
    Bar.strict_eq (pct (Bar.of_count 23) (Bar.of_count 40)) (Bar.of_int p)
      = true /\
    (0 <= p <= 100)%Z /\
    (pct_exact (Z.of_nat 23) (Z.of_nat 40) - 1 <= p
       <= pct_exact (Z.of_nat 23) (Z.of_nat 40))%Z /\
    (23 = 0 -> p = 0%Z) /\
    (23 = 40 -> p = 100%Z /\
                Bar.bar_is_emerald (Bar.of_count 23) (Bar.of_count 40) = true) /\
    (23 < 40 ->
     exists q,
       Bar.strict_eq (pct (Bar.of_count 24) (Bar.of_count 40)) (Bar.of_int q)
         = true /\
       (p <= q)%Z).
Proof.
  apply (bar_on_file_counts 40 23); unfold Bar.largest_total; lia.
Defined.

(** The bar can be full before the job is: at 199 files of 200 it shows
    100 and is emerald. *)
Lemma bar_full_before_the_end :
  Bar.strict_eq (pct (Bar.of_count 199) (Bar.of_count 200)) (Bar.of_int 100)
    = true /\
  Bar.bar_is_emerald (Bar.of_count 199) (Bar.of_count 200) = true.
Proof. split; vm_compute; reflexivity. Qed.

(* ================================================================== *)
(** ** The mapping list, line by line *)
(* ================================================================== *)

Lemma are_lines_spec (ls : list jsstring) :
  Wording.are_lines ls = true <->
  ls <> [] /\ forall l, In l ls -> ~ In 10%N l.
Proof.
  unfold Wording.are_lines. rewrite andb_true_iff, forallb_forall. split.
  - intros [Hn Hlf]. split; [intros ->; discriminate Hn |].
    intros l Hl H10. specialize (Hlf l Hl). apply negb_true_iff in Hlf.
    assert (E : existsb (N.eqb 10) l = true)
      by (apply existsb_exists; exists 10%N; split;
          [exact H10 | apply N.eqb_refl]).
    congruence.
  - intros [Hne Hlf]. split; [destruct ls; [contradiction | reflexivity] |].
    intros l Hl. apply negb_true_iff.
    destruct (existsb (N.eqb 10) l) eqn:E; [| reflexivity].
    apply existsb_exists in E as (x & Hx & Ex). apply N.eqb_eq in Ex.
    subst x. now destruct (Hlf l Hl).
Qed.

(** Every text is made of lines: the text areas hold nothing else. *)
Lemma text_has_lines (text : jsstring) :
  exists ls, Wording.are_lines ls = true /\ join_lf ls = text.
Proof.
  exists (split_lf text). split; [| apply join_split_lf].
  apply are_lines_spec. split.
  - destruct (split_lf_cons text) as (l & ls & ->). discriminate.
  - intros l. apply split_lf_no_lf.
Qed.

(** The lines the memo keeps are the non-blank lines, in their order. *)
Lemma nonblank_lines_join (ls : list jsstring) :
  Wording.are_lines ls = true ->
  nonblank_lines (join_lf ls) = Wording.nonblank ls.
Proof.
  intros H. apply are_lines_spec in H as [Hne Hlf].
  rewrite nonblank_lines_spec, split_join_lf by assumption. reflexivity.
Qed.

Lemma trim_trimmed (l : jsstring) : Wording.trimmed l (trim l).
Proof.
  destruct (trim_decompose l) as (p & q & E & Hp & Hq).
  exists p, q. repeat split; try assumption.
  - intros c r H. exact (trim_head l r c H).
  - intros r c H. exact (trim_last l r c H).
Qed.

Lemma trimStart_spaces (p s : jsstring) :
  forallb is_space p = true -> trimStart (p ++ s) = trimStart s.
Proof.
  induction p as [| c r IH]; cbn; [reflexivity |].
  intros H. apply andb_true_iff in H as [-> H]. now apply IH.
Qed.

(** A line has one trimmed form only, the one [trim] computes. *)
Lemma trimmed_unique (l t : jsstring) : Wording.trimmed l t -> t = trim l.
Proof.
  intros (p & q & -> & Hp & Hq & Hhead & Hlast).
  unfold trim, trimEnd. rewrite trimStart_spaces by exact Hp.
  assert (Hrq : forallb is_space (rev q) = true).
  { rewrite forallb_forall in Hq |- *. intros x Hx. apply Hq.
    now apply in_rev. }
  destruct t as [| c r].
  - cbn [app]. apply trimStart_nil in Hq. rewrite Hq. reflexivity.
  - rewrite (trimStart_fixed ((c :: r) ++ q)).
    + rewrite rev_app_distr, trimStart_spaces by exact Hrq.
      rewrite trimStart_fixed; [now rewrite rev_involutive |].
      intros x y E. apply (f_equal (@rev _)) in E.
      rewrite rev_involutive in E. cbn in E.
      exact (Hlast (rev y) x E).
    + intros x y E. cbn in E. injection E as <- _.
      exact (Hhead c r eq_refl).
Qed.

(** C2.  The two text areas hold lines.  When they have the same number of
    non-blank lines (lines with a character that is not whitespace), the
    mapping list has that many entries, and its i-th entry pairs the i-th
    non-blank old line with the i-th non-blank new line, counted in the
    order of the input, each without the whitespace at its two ends; when
    the counts differ or one input has no non-blank line, the list is
    empty. *)
Theorem mappings_pair_lines_in_order (oldLs newLs : list jsstring) :
  Wording.are_lines oldLs = true -> Wording.are_lines newLs = true ->
  (length (Wording.nonblank oldLs) = length (Wording.nonblank newLs) ->
   exists ms,
     mappings (join_lf oldLs) (join_lf newLs) = Some ms /\
     length ms = length (Wording.nonblank oldLs) /\
     forall i o n,
       nth_error (Wording.nonblank oldLs) i = Some o ->
       nth_error (Wording.nonblank newLs) i = Some n ->
       exists m,
         nth_error ms i = Some m /\
         Wording.trimmed o (old m) /\ Wording.trimmed n (new m)) /\
  (length (Wording.nonblank oldLs) <> length (Wording.nonblank newLs)
   \/ Wording.nonblank oldLs = [] \/ Wording.nonblank newLs = [] ->
   mappings (join_lf oldLs) (join_lf newLs) = Some []).
Proof.
  intros Ho Hn.
  destruct (mappings_pairs_nonblank_lines (join_lf oldLs) (join_lf newLs))
    as [H1 H2].
  rewrite !(nonblank_lines_join oldLs Ho), !(nonblank_lines_join newLs Hn)
    in H1, H2.
  split; [| exact H2].
  intros Hlen. destruct (H1 Hlen) as (ms & E & Hl & Hnth).
  exists ms. split; [exact E |]. split; [exact Hl |].
  intros i o n Hio Hin. eexists. split; [exact (Hnth i o n Hio Hin) |].
  cbn. split; apply trim_trimmed.
Qed.

Lemma mappings_pair_lines_in_order_witness :
  (exists ms,
     mappings Examples.old_text Examples.new_text = Some ms /\
     length ms = 2 /\
     forall i o n,
       nth_error [lit "[AS] Episode 1.mkv"; lit "  [AS] Episode 2.mkv "] i
         = Some o ->
       nth_error [lit "Show.S01E001.mkv"; lit "Show.S01E002.mkv"] i = Some n ->
       exists m,
         nth_error ms i = Some m /\
         Wording.trimmed o (old m) /\ Wording.trimmed n (new m)) /\
  mappings Examples.old_text (lit "only one.mkv") = Some [].
Proof.
  split.
  - exact (proj1 (mappings_pair_lines_in_order
                    Wording.old_lines Wording.new_lines eq_refl eq_refl)
                 eq_refl).
  - refine (proj2 (mappings_pair_lines_in_order
                     Wording.old_lines [lit "only one.mkv"] eq_refl eq_refl)
                  (or_introl _)).
    vm_compute. discriminate.
Defined.
